(** * The XTDB storage client of the gateway (gateway/storage/xtdb.go)

    A shallow embedding of the HTTP client that submits transactions to
    XTDB, fetches entities, runs queries and waits for the node to sync.

    The sequential operations are written in a state monad over a
    [World] that records every HTTP request issued and every log line
    written; the answers of the store come from an oracle.  [Sync] starts
    a goroutine that races a deadline, and is modelled as a transition
    system over the interleavings of the goroutine and its caller. *)

From Stdlib Require Import ZArith String Ascii List Lia.
From stdpp Require Import base strings list gmap pretty.

Open Scope Z_scope.

(** ** Go values *)

(** A Go [error] is identified with its message. *)
Definition error := string.

(** A library call whose value is only used when its error is nil. *)
Inductive Result (A : Type) : Type :=
  | Ok (a : A)
  | Err (e : error).
Arguments Ok {A} a.
Arguments Err {A} e.

(** What a function call leaves behind: its return values, or a run-time
    panic that unwinds the caller. *)
Inductive Res (A : Type) : Type :=
  | Done (a : A)
  | Panicked (msg : string).
Arguments Done {A} a.
Arguments Panicked {A} msg.

(** [strings.Join(elems, sep)] *)
Definition strings_Join (elems : list string) (sep : string) : string :=
  String.concat sep elems.

(** [fmt]'s [%v] of an integer. *)
Definition fmt_int (n : Z) : string := pretty n.

(** [fmt]'s [%v] of a bool. *)
Definition fmt_bool (b : bool) : string := if b then "true" else "false".

(** [time.Duration] counts nanoseconds. *)
Definition Duration := Z.
Definition Millisecond : Duration := 1000000.
Definition Second : Duration := 1000 * Millisecond.

(** [Duration.Milliseconds] truncates toward zero. *)
Definition Milliseconds (d : Duration) : Z := Z.quot d Millisecond.

(** ** net/http *)

(** A response body: the bytes a reader obtains and the error, if any,
    that ends the read. *)
Record Body : Type := mkBody {
  content : string;
  readErr : option error
}.

(** [io.ReadAll] *)
Definition io_ReadAll (b : Body) : string * option error :=
  (content b, readErr b).

Record Response : Type := mkResponse {
  StatusCode : Z;
  RespBody : Body
}.

Definition StatusOK : Z := 200.
Definition StatusAccepted : Z := 202.
Definition StatusNotFound : Z := 404.

(** [url.Values]: the query parameters in the order they were added. *)
Definition Values := list (string * string).

Definition Values_Add (q : Values) (key value : string) : Values :=
  q ++ [(key, value)].

(** Puts a parameter behind those whose key is not greater. *)
Fixpoint Values_insert (kv : string * string) (q : Values) : Values :=
  match q with
  | [] => [kv]
  | kv' :: rest =>
      if String.ltb (fst kv) (fst kv') then kv :: q
      else kv' :: Values_insert kv rest
  end.

(** [q.Encode()]: the parameters sorted by key, those of one key in the
    order they were added.  The percent-escaping of keys and values is
    left to net/url. *)
Definition Values_Encode (q : Values) : Values :=
  fold_left (fun sorted kv => Values_insert kv sorted) q [].

(** A request.  [URL] is the string given to [http.NewRequest];
    [RawQuery] holds the parameters of the query the request goes out
    with: those of the query string of that URL, until the client
    assigns [req.URL.RawQuery]. *)
Record Request : Type := mkRequest {
  Method : string;
  URL : string;
  RawQuery : Values;
  Header : gmap string string;
  ReqBody : option string
}.

Definition isLower (c : ascii) : bool :=
  ((97 <=? nat_of_ascii c) && (nat_of_ascii c <=? 122))%nat.

Definition isUpper (c : ascii) : bool :=
  ((65 <=? nat_of_ascii c) && (nat_of_ascii c <=? 90))%nat.

Definition toUpper (c : ascii) : ascii :=
  if isLower c then ascii_of_nat (nat_of_ascii c - 32) else c.

Definition toLower (c : ascii) : ascii :=
  if isUpper c then ascii_of_nat (nat_of_ascii c + 32) else c.

Fixpoint canonical (upper : bool) (s : string) : string :=
  match s with
  | EmptyString => EmptyString
  | String c rest =>
      String (if upper then toUpper c else toLower c)
             (canonical (if ascii_dec c "-" then true else false) rest)
  end.

(** [textproto.CanonicalMIMEHeaderKey] on header names made of letters
    and hyphens, which is all this client uses. *)
Definition CanonicalMIMEHeaderKey (key : string) : string :=
  canonical true key.

(** [req.Header.Set(key, value)] *)
Definition Header_Set (req : Request) (key value : string) : Request :=
  {| Method := Method req;
     URL := URL req;
     RawQuery := RawQuery req;
     Header := <[CanonicalMIMEHeaderKey key := value]> (Header req);
     ReqBody := ReqBody req |}.

(** [req.URL.RawQuery = ...] *)
Definition set_RawQuery (req : Request) (q : Values) : Request :=
  {| Method := Method req;
     URL := URL req;
     RawQuery := q;
     Header := Header req;
     ReqBody := ReqBody req |}.

(** The two results of a round trip: [(nil, err)] and [(resp, nil)].
    net/http returns a non-nil response whenever the error is nil. *)
Inductive RoundTrip : Type :=
  | Failed (err : error)
  | Responded (resp : Response).

(** ** Logging *)

Inductive Level : Type := LDebug | LInfo | LWarn | LPrint.

(** ** The world of a client *)

Record World : Type := mkWorld {
  sent : list Request;
  logged : list (Level * string)
}.

Definition M (A : Type) : Type := World -> Res A * World.

Definition ret {A : Type} (a : A) : M A := fun w => (Done a, w).

Definition panic {A : Type} (msg : string) : M A := fun w => (Panicked msg, w).

Definition bind {A B : Type} (m : M A) (k : A -> M B) : M B :=
  fun w =>
    match m w with
    | (Done a, w') => k a w'
    | (Panicked msg, w') => (Panicked msg, w')
    end.

Notation "'let*' x ':=' m 'in' k" := (bind m (fun x => k))
  (at level 10, x name, m at level 200, k at level 200, only parsing).

(** Modelled from the spec: the logging package (common/log) is not among
    the sources; its calls are the fire-and-forget logging of section 9,
    modelled as appending one line to the log of the world. *)
Definition log (lvl : Level) (msg : string) : M unit :=
  fun w => (Done tt, {| sent := sent w; logged := logged w ++ [(lvl, msg)] |}).

(** ** The transaction receipt *)

(** A [time.Time], as an offset from the zero time. *)
Definition Time := Z.

Record TxResponse : Type := mkTxResponse {
  TxID : Z;
  TxTime : Time
}.

(** The zero value of [var txResponse TxResponse]. *)
Definition zeroTxResponse : TxResponse := {| TxID := 0; TxTime := 0 |}.

Set Warnings "-register-all".

(** A JSON value handed to [json.Marshal]. *)
Inductive JSON (P : Type) : Type :=
  | JString (s : string)
  | JArray (elems : list (JSON P))
  | JObject (fields : list (string * JSON P))
  | JAny (p : P).
Arguments JString {P} s.
Arguments JArray {P} elems.
Arguments JObject {P} fields.
Arguments JAny {P} p.

Set Warnings "+register-all".

(** ** The environment: the libraries and the store

    The encoders and decoders of go-edn and encoding/json, the URL parser
    behind [http.NewRequest], and the store at the other end of the wire
    are not part of this package. *)
Record Env : Type := mkEnv {
  (** the values a caller passes as [TxEdnStruct] *)
  TxEdnStruct : Type;
  (** [map[string]any] *)
  Payload : Type;
  (** [map[edn.Keyword]any] *)
  EdnMap : Type;
  (** [edn.Marshal] of one transaction document *)
  edn_Marshal : TxEdnStruct -> Result string;
  (** [edn.Marshal] of a [[]map[edn.Keyword]any] *)
  edn_MarshalMaps : list EdnMap -> Result string;
  (** [edn.Unmarshal] into a [[][]map[edn.Keyword]any] *)
  edn_UnmarshalRows : string -> Result (list (list EdnMap));
  (** [edn.NewDecoder(body).Decode(&txResponse)]: the receipt as the
      decoder leaves it, and its error *)
  edn_DecodeTx : Body -> TxResponse -> TxResponse * option error;
  (** [json.Marshal] *)
  json_Marshal : JSON Payload -> Result string;
  (** [json.Unmarshal] into a [[][]map[string]any] *)
  json_UnmarshalRows : string -> Result (list (list Payload));
  (** [json.NewDecoder(body).Decode(&txResponse)] *)
  json_DecodeTx : Body -> TxResponse -> TxResponse * option error;
  (** [strconv.Quote], the [%q] verb *)
  strconv_Quote : string -> string;
  (** [fmt] given a format string and no operand *)
  fmt_Sprintf0 : string -> string;
  (** the error of [url.Parse], if any *)
  url_Parse : string -> option error;
  (** the parameters of the query string of a URL, in the order they
      stand there, as [URL.Query] reads them *)
  url_Query : string -> Values;
  (** the answer of the network to a request, given the requests sent
      before it *)
  transport : list Request -> Request -> RoundTrip;
  (** how long that answer takes *)
  latency : list Request -> Request -> Duration
}.

(** ** The client *)

Definition defaultAddress : string := "http://localhost:3000".

Record Storage : Type := mkStorage {
  address : string
}.

(** [New], given the value of the environment variable XTDB_ADDRESS. *)
Definition New (XTDB_ADDRESS : string) : Storage :=
  if String.eqb XTDB_ADDRESS "" then {| address := defaultAddress |}
  else {| address := XTDB_ADDRESS |}.

Definition SetURL (s : Storage) (xtdbURL : string) : Storage :=
  {| address := xtdbURL |}.

(** ** Entity projection *)

(** A struct field as reflection shows it: the value of the edn key of
    its tag ([Tag.Get("edn")], empty when the tag has no such key),
    whether the field is exported, and the value it holds. *)
Record StructField (V : Type) : Type := mkStructField {
  ednTag : string;
  exported : bool;
  fieldValue : V
}.
Arguments mkStructField {V} ednTag exported fieldValue.
Arguments ednTag {V} _.
Arguments exported {V} _.
Arguments fieldValue {V} _.

(** What [EntityToMap] is handed: a non-nil pointer to a struct, or any
    other value. *)
Inductive Object (V : Type) : Type :=
  | StructPointer (fields : list (StructField V))
  | NotAStructPointer.
Arguments StructPointer {V} fields.
Arguments NotAStructPointer {V}.

(** The loop of [EntityToMap] over the fields; [f.Interface()] panics on
    an unexported field. *)
Fixpoint EntityToMap_loop {V : Type} (fields : list (StructField V))
    (payload : gmap string V) : Res (gmap string V) :=
  match fields with
  | [] => Done payload
  | f :: rest =>
      let xtdbName := ednTag f in
      if negb (String.eqb xtdbName "") && negb (String.eqb xtdbName "-") then
        if exported f then
          EntityToMap_loop rest (<[xtdbName := fieldValue f]> payload)
        else
          Panicked "reflect.Value.Interface: cannot return value obtained from unexported field or method"
      else EntityToMap_loop rest payload
  end.

(** [EntityToMap]: [reflect.ValueOf(obj).Elem()] and [NumField] panic on
    anything but a non-nil pointer to a struct. *)
Definition EntityToMap {V : Type} (obj : Object V) : Res (gmap string V) :=
  match obj with
  | StructPointer fields => EntityToMap_loop fields ∅
  | NotAStructPointer => Panicked "reflect: call on a value that is not a pointer to a struct"
  end.

(** ** A concrete environment

    A small store and toy codecs, on which the definitions below can be
    evaluated. *)
Module Demo.

Definition isCTL (c : ascii) : bool :=
  ((nat_of_ascii c <? 32) || (nat_of_ascii c =? 127))%nat.

(** [url.Parse] refuses control characters. *)
Definition parse (u : string) : option error :=
  if existsb isCTL (list_ascii_of_string u)
  then Some "net/url: invalid control character in URL"
  else None.

(** A document is its EDN text; [None] stands for a value that EDN cannot
    represent. *)
Definition marshal (tx : option string) : Result string :=
  match tx with
  | Some doc => Ok doc
  | None => Err "edn: unsupported type"
  end.

(** The receipt of a body of n > 0 bytes has transaction id n. *)
Definition decodeTx (b : Body) (tx : TxResponse) : TxResponse * option error :=
  match readErr b with
  | Some err => (tx, Some err)
  | None =>
      if String.eqb (content b) "" then (tx, Some "EOF")
      else ({| TxID := Z.of_nat (String.length (content b)); TxTime := 0 |}, None)
  end.

(** What follows the first [c] in [str], if [c] occurs. *)
Fixpoint afterChar (c : ascii) (str : string) : option string :=
  match str with
  | EmptyString => None
  | String x rest => if Ascii.eqb x c then Some rest else afterChar c rest
  end.

(** What precedes the first [c] in [str]. *)
Fixpoint beforeChar (c : ascii) (str : string) : string :=
  match str with
  | EmptyString => EmptyString
  | String x rest =>
      if Ascii.eqb x c then EmptyString else String x (beforeChar c rest)
  end.

(** The pieces of [str] between two [c]; [piece] is the one being read. *)
Fixpoint splitOn (c : ascii) (str piece : string) : list string :=
  match str with
  | EmptyString => [piece]
  | String x rest =>
      if Ascii.eqb x c then piece :: splitOn c rest EmptyString
      else splitOn c rest (piece +:+ String x EmptyString)
  end.

(** The parameters that follow the question mark of a URL, without any
    unescaping. *)
Definition queryOf (u : string) : Values :=
  match afterChar "?" u with
  | None => []
  | Some raw =>
      map (fun pair => (beforeChar "=" pair, default "" (afterChar "=" pair)))
          (List.filter (fun pair => negb (String.eqb pair "")) (splitOn "&" raw ""))
  end.

Definition quote (x : string) : string :=
  String (ascii_of_nat 34) x +:+ String (ascii_of_nat 34) EmptyString.

Definition env (net : list Request -> Request -> RoundTrip)
    (rows : string -> Result (list (list string))) (lat : Duration) : Env :=
  {| TxEdnStruct := option string;
     Payload := string;
     EdnMap := string;
     edn_Marshal := marshal;
     edn_MarshalMaps := fun r => Ok ("[" +:+ String.concat " " r +:+ "]");
     edn_UnmarshalRows := rows;
     edn_DecodeTx := decodeTx;
     json_Marshal := fun _ => Ok "{}";
     json_UnmarshalRows := rows;
     json_DecodeTx := decodeTx;
     strconv_Quote := quote;
     fmt_Sprintf0 := fun format => format;
     url_Parse := parse;
     url_Query := queryOf;
     transport := net;
     latency := fun _ _ => lat |}.

(** A store that answers every request with the given status and body. *)
Definition always (code : Z) (body : string) : list Request -> Request -> RoundTrip :=
  fun _ _ => Responded {| StatusCode := code;
                          RespBody := {| content := body; readErr := None |} |}.

(** A store that cannot be reached. *)
Definition unreachable : list Request -> Request -> RoundTrip :=
  fun _ _ => Failed "connection refused".

(** The answer of a store that accepts a submission. *)
Definition receipt : Response :=
  {| StatusCode := 202; RespBody := {| content := "receipt"; readErr := None |} |}.

(** A store that accepts submissions and fails every other request. *)
Definition acceptsOnly : list Request -> Request -> RoundTrip :=
  fun _ req =>
    if String.eqb (Method req) "POST"
    then Responded receipt
    else Failed "connection refused".

Definition noRows : string -> Result (list (list string)) :=
  fun _ => Err "edn: cannot decode".

(** [New()] with XTDB_ADDRESS unset. *)
Definition store : Storage := New "".

(** A world in which nothing has happened yet. *)
Definition fresh : World := {| sent := []; logged := [] |}.

(** A store that accepts submissions and cannot be reached afterwards. *)
Definition accepting : Env := env acceptsOnly noRows 0.

(** A store that accepts every request and sends an empty body back. *)
Definition mute : Env := env (always 202 "") noRows 0.

(** A store that has no entity. *)
Definition missing : Env := env (always 404 "") noRows 0.

(** A store that fails with status 500. *)
Definition broken : Env := env (always 500 "boom") noRows 0.

(** A store whose query result has two rows of two columns. *)
Definition tabular : Env :=
  env (always 200 "[[a b] [c d]]") (fun _ => Ok [["a"; "b"]; ["c"; "d"]]) 0.

(** A store whose query result has a row with no column. *)
Definition ragged : Env :=
  env (always 200 "[[a] []]") (fun _ => Ok [["a"]; []]) 0.

(** A store that cannot be reached, and says so after five seconds. *)
Definition slow : Env := env unreachable noRows (5 * Second).

(** A store that refuses the connection at once. *)
Definition refusing : Env := env unreachable noRows 0.

(** A store that is in sync and answers within twenty milliseconds. *)
Definition synced : Env := env (always 200 "") noRows (20 * Millisecond).

(** The request of [GetEntity] on [store]. *)
Definition entity (xtId : string) : Request :=
  set_RawQuery
    (Header_Set
       {| Method := "GET"; URL := "http://localhost:3000/_xtdb/entity";
          RawQuery := []; Header := ∅; ReqBody := None |}
       "accept" "application/edn")
    [("eid", xtId)].

(** The request of [GetEntityHistory] on [store]. *)
Definition history (eid sortOrder : string) (withDocs : bool) : Request :=
  set_RawQuery
    (Header_Set
       {| Method := "GET"; URL := "http://localhost:3000/_xtdb/entity";
          RawQuery := []; Header := ∅; ReqBody := None |}
       "accept" "application/edn")
    [("eid", eid); ("history", "true"); ("sort-order", sortOrder);
     ("with-docs", fmt_bool withDocs)].

(** The submit request of [PersistEntities] on [store]. *)
Definition persist (body : string) : Request :=
  Header_Set
    (Header_Set
       {| Method := "POST"; URL := "http://localhost:3000/_xtdb/submit-tx";
          RawQuery := []; Header := ∅; ReqBody := Some body |}
       "content-type" "application/json")
    "accept" "application/json".

(** The submit request of [SubmitPutTx] and [SubmitEvictTx] on [store]. *)
Definition submit (body : string) : Request :=
  Header_Set
    (Header_Set
       {| Method := "POST"; URL := "http://localhost:3000/_xtdb/submit-tx";
          RawQuery := []; Header := ∅; ReqBody := Some body |}
       "content-type" "application/edn")
    "accept" "application/edn".

(** The request of [queryRequest] on [store]. *)
Definition query (ednQuery contentType : string) : Request :=
  Header_Set
    (Header_Set
       {| Method := "POST"; URL := "http://localhost:3000/_xtdb/query";
          RawQuery := []; Header := ∅; ReqBody := Some ednQuery |}
       "accept" contentType)
    "content-type" "application/edn".

(** A store whose query result has rows of one and of two columns. *)
Definition uneven : Env :=
  env (always 200 "[[a] [c d]]") (fun _ => Ok [["a"]; ["c"; "d"]]) 0.

(** A client whose base address ends in a query string. *)
Definition scoped : Storage := SetURL store "http://h:3000?x=1".

(** A client whose base address holds a control character. *)
Definition garbled : Storage := SetURL store (String (ascii_of_nat 127) "").

(** A record with an identity, an ignored field, an unexported field
    without tag, and a tag that two fields carry. *)
Definition record : Object Z :=
  StructPointer
    [mkStructField "xt/id" true 1; mkStructField "-" true 2;
     mkStructField "" false 3; mkStructField "name" true 4;
     mkStructField "name" true 5].

End Demo.


Section Client.

Variable E : Env.

(** [s.client.Do(req)]: the request goes on the wire and is answered.
    [defer resp.Body.Close()] leaves no trace in the model. *)
Definition client_Do (req : Request) : M RoundTrip :=
  fun w =>
    (Done (transport E (sent w) req),
     {| sent := sent w ++ [req]; logged := logged w |}).

(** [http.NewRequest(method, url, body)] for one of the method constants
    of net/http: it fails exactly when the URL does not parse, and the
    request it returns carries the query string of the URL. *)
Definition http_NewRequest (method url : string) (body : option string)
  : Result Request :=
  match url_Parse E url with
  | Some err => Err err
  | None =>
      Ok {| Method := method; URL := url; RawQuery := url_Query E url;
            Header := ∅; ReqBody := body |}
  end.

(** [http.Get(url)]: a GET of the default client, with no header set by
    the caller. *)
Definition http_Get (url : string) : M RoundTrip :=
  match http_NewRequest "GET" url None with
  | Err err => ret (Failed err)
  | Ok req => client_Do req
  end.

(** The loop of [buildTrxPutEdn]. *)
Fixpoint buildTrxPutEdn_loop (trxs : list (TxEdnStruct E))
    (trxVector : list string) : string * option error :=
  match trxs with
  | [] => ("{:tx-ops [" +:+ strings_Join trxVector "" +:+ "]}", None)
  | tx :: rest =>
      match edn_Marshal E tx with
      | Err err => ("", Some err)
      | Ok txEdn =>
          buildTrxPutEdn_loop rest
            (trxVector ++ ["[:xtdb.api/put " +:+ txEdn +:+ "]"])
      end
  end.

Definition buildTrxPutEdn (trxs : list (TxEdnStruct E))
  : string * option error :=
  buildTrxPutEdn_loop trxs [].

Definition buildTrxEvictEdn (xtIDs : list string) : string * option error :=
  let trxVector :=
    map (fun xtID => "[:xtdb.api/evict " +:+ strconv_Quote E xtID +:+ "]") xtIDs in
  ("{:tx-ops [" +:+ strings_Join trxVector "" +:+ "]}", None).

(** [AwaitTx] *)
Definition AwaitTx (s : Storage) (txID : Z) : M (option error) :=
  let url := address s +:+ "/_xtdb/await-tx?tx-id=" +:+ fmt_int txID
             +:+ "&timeout=5000" in
  let* rt := http_Get url in
  match rt with
  | Failed err =>
      ret (Some ("failed awaiting transaction " +:+ fmt_int txID
                 +:+ ", err=" +:+ err))
  | Responded resp =>
      if negb (StatusCode resp =? 200) then
        let (data, _) := io_ReadAll (RespBody resp) in
        ret (Some ("failed awaiting transaction " +:+ fmt_int txID
                   +:+ ", code=" +:+ fmt_int (StatusCode resp)
                   +:+ ", response=" +:+ data))
      else ret None
  end.

(** The best-effort wait shared by the three submit paths:
    [if txResponse.TxID > 0 { if err := s.AwaitTx(...) ... Warnf }]. *)
Definition awaitBestEffort (s : Storage) (txResponse : TxResponse) : M unit :=
  if 0 <? TxID txResponse then
    let* aerr := AwaitTx s (TxID txResponse) in
    match aerr with
    | Some err => log LWarn (fmt_Sprintf0 E err)
    | None => ret tt
    end
  else ret tt.

(** [SubmitPutTx].  The test [resp == nil] that follows [s.client.Do] in
    the source cannot hold when the error is nil (see [RoundTrip]), so
    its branch, which returns "http response is empty", has no case
    here. *)
Definition SubmitPutTx (s : Storage) (trxs : list (TxEdnStruct E))
  : M (option TxResponse * option error) :=
  let url := address s +:+ "/_xtdb/submit-tx" in
  match buildTrxPutEdn trxs with
  | (_, Some err) => ret (None, Some err)
  | (txOpsEdn, None) =>
  match http_NewRequest "POST" url (Some txOpsEdn) with
  | Err err => ret (None, Some err)
  | Ok req =>
  let req := Header_Set req "content-type" "application/edn" in
  let req := Header_Set req "accept" "application/edn" in
  let* rt := client_Do req in
  match rt with
  | Failed err => ret (None, Some err)
  | Responded resp =>
      if StatusCode resp =? StatusAccepted then
        let (txResponse, derr) := edn_DecodeTx E (RespBody resp) zeroTxResponse in
        let* _ := match derr with
              | Some err =>
                  log LWarn ("error decoding transaction response, err=" +:+ err)
              | None => ret tt
              end in
        let* _ := awaitBestEffort s txResponse in
        ret (Some txResponse, None)
      else
        let (data, _) := io_ReadAll (RespBody resp) in
        let* _ := log LPrint ("unknown status code=" +:+ fmt_int (StatusCode resp)
                          +:+ ", body=" +:+ data) in
        ret (None, Some ("received unknown status code="
                         +:+ fmt_int (StatusCode resp)))
  end
  end
  end.

(** [SubmitEvictTx], with the same remark on [resp == nil]. *)
Definition SubmitEvictTx (s : Storage) (xtIDs : list string)
  : M (option TxResponse * option error) :=
  if (length xtIDs =? 0)%nat then
    ret (None, Some "need at least one xt/id to evict")
  else
  let url := address s +:+ "/_xtdb/submit-tx" in
  match buildTrxEvictEdn xtIDs with
  | (_, Some err) => ret (None, Some err)
  | (txOpsEdn, None) =>
  match http_NewRequest "POST" url (Some txOpsEdn) with
  | Err err => ret (None, Some err)
  | Ok req =>
  let req := Header_Set req "content-type" "application/edn" in
  let req := Header_Set req "accept" "application/edn" in
  let* rt := client_Do req in
  match rt with
  | Failed err => ret (None, Some err)
  | Responded resp =>
      if StatusCode resp =? StatusAccepted then
        let (txResponse, derr) := edn_DecodeTx E (RespBody resp) zeroTxResponse in
        let* _ := match derr with
              | Some err =>
                  log LInfo ("error decoding transaction response, err=" +:+ err)
              | None => ret tt
              end in
        let* _ := awaitBestEffort s txResponse in
        ret (Some txResponse, None)
      else
        let (data, _) := io_ReadAll (RespBody resp) in
        let* _ := log LInfo ("unknown status code=" +:+ fmt_int (StatusCode resp)
                         +:+ ", body=" +:+ data) in
        ret (None, Some ("received unknown status code="
                         +:+ fmt_int (StatusCode resp)))
  end
  end
  end.

(** [buildPersistPayload] *)
Definition buildPersistPayload (payloads : list (Payload E))
  : option string * option error :=
  let txOps := map (fun payload => JArray [JString "put"; JAny payload]) payloads in
  match json_Marshal E (JObject [("tx-ops", JArray txOps)]) with
  | Err err => (None, Some err)
  | Ok b => (Some b, None)
  end.

(** [PersistEntities] *)
Definition PersistEntities (s : Storage) (payloads : list (Payload E))
  : M (Z * option error) :=
  let url := address s +:+ "/_xtdb/submit-tx" in
  match buildPersistPayload payloads with
  | (_, Some err) => ret (0, Some err)
  | (bytePayload, None) =>
  match http_NewRequest "POST" url bytePayload with
  | Err err => ret (0, Some err)
  | Ok req =>
  let req := Header_Set req "content-type" "application/json" in
  let req := Header_Set req "accept" "application/json" in
  let* rt := client_Do req in
  match rt with
  | Failed err => ret (0, Some err)
  | Responded resp =>
      if StatusCode resp =? StatusAccepted then
        let (txResponse, derr) := json_DecodeTx E (RespBody resp) zeroTxResponse in
        let* _ := match derr with
              | Some err =>
                  log LWarn ("error decoding transaction response, err=" +:+ err)
              | None => ret tt
              end in
        let* _ := awaitBestEffort s txResponse in
        ret (TxID txResponse, None)
      else ret (0, Some "not 202")
  end
  end
  end.

(** [GetEntity] *)
Definition GetEntity (s : Storage) (xtId : string)
  : M (option string * option error) :=
  let url := address s +:+ "/_xtdb/entity" in
  match http_NewRequest "GET" url None with
  | Err err => ret (None, Some err)
  | Ok req =>
  let req := Header_Set req "accept" "application/edn" in
  let q := RawQuery req in
  let q := Values_Add q "eid" xtId in
  let req := set_RawQuery req (Values_Encode q) in
  let* rt := client_Do req in
  match rt with
  | Failed err => ret (None, Some err)
  | Responded resp =>
      if StatusCode resp =? StatusOK then
        let (b, err) := io_ReadAll (RespBody resp) in ret (Some b, err)
      else if StatusCode resp =? StatusNotFound then
        ret (None, None)
      else
        ret (None, Some ("unknown http response returned fetching entity, status="
                         +:+ fmt_int (StatusCode resp)))
  end
  end.

(** [GetEntityHistory] *)
Definition GetEntityHistory (s : Storage) (eid sortOrder : string)
    (withDocs : bool) : M (option string * option error) :=
  let url := address s +:+ "/_xtdb/entity" in
  if negb (String.eqb sortOrder "asc") && negb (String.eqb sortOrder "desc") then
    ret (None, Some "wrong sort order input, accept 'asc' or 'desc'")
  else
  match http_NewRequest "GET" url None with
  | Err err => ret (None, Some err)
  | Ok req =>
  let req := Header_Set req "accept" "application/edn" in
  let q := RawQuery req in
  let q := Values_Add q "eid" eid in
  let q := Values_Add q "sort-order" sortOrder in
  let q := Values_Add q "history" "true" in
  let q := Values_Add q "with-docs" (fmt_bool withDocs) in
  let req := set_RawQuery req (Values_Encode q) in
  let* rt := client_Do req in
  match rt with
  | Failed err => ret (None, Some err)
  | Responded resp =>
      if StatusCode resp =? StatusOK then
        match io_ReadAll (RespBody resp) with
        | (_, Some err) => ret (None, Some err)
        | (b, None) => ret (Some b, None)
        end
      else if StatusCode resp =? StatusNotFound then
        ret (None, None)
      else
        let (respErr, _) := io_ReadAll (RespBody resp) in
        ret (None, Some ("unknown status code (" +:+ fmt_int (StatusCode resp)
                         +:+ "), response=" +:+ respErr))
  end
  end.

(** [queryRequest] *)
Definition queryRequest (s : Storage) (ednQuery contentType : string)
  : M (option string * option error) :=
  let url := address s +:+ "/_xtdb/query" in
  match http_NewRequest "POST" url (Some ednQuery) with
  | Err err => ret (None, Some err)
  | Ok req =>
  let req := Header_Set req "accept" contentType in
  let req := Header_Set req "content-type" "application/edn" in
  let* rt := client_Do req in
  match rt with
  | Failed err => ret (None, Some err)
  | Responded resp =>
      match io_ReadAll (RespBody resp) with
      | (_, Some err) => ret (None, Some err)
      | (b, None) => ret (Some b, None)
      end
  end
  end.

Definition QueryRaw (s : Storage) (ednQuery : string) :=
  queryRequest s ednQuery "application/edn".

Definition QueryRawAsJson (s : Storage) (ednQuery : string) :=
  queryRequest s ednQuery "application/json".

(** The loop [for _, l := range p { r = append(r, l[0]) }]; indexing an
    empty row is a run-time panic. *)
Fixpoint firstColumns {A : Type} (p : list (list A)) (r : list A)
  : Res (list A) :=
  match p with
  | [] => Done r
  | l :: rest =>
      match l !! 0%nat with
      | Some x => firstColumns rest (r ++ [x])
      | None => Panicked "index out of range [0] with length 0"
      end
  end.

(** [Query] *)
Definition Query (s : Storage) (ednQuery : string)
  : M (option string * option error) :=
  let* res := queryRequest s ednQuery "application/edn" in
  match res with
  | (_, Some err) => ret (None, Some err)
  | (b, None) =>
  match edn_UnmarshalRows E (default "" b) with
  | Err err => ret (None, Some err)
  | Ok p =>
  match firstColumns p [] with
  | Panicked msg => panic msg
  | Done r =>
  match edn_MarshalMaps E r with
  | Err err => ret (None, Some err)
  | Ok response => ret (Some response, None)
  end
  end
  end
  end.

(** [QueryAsJson] *)
Definition QueryAsJson (s : Storage) (ednQuery : string)
  : M (option string * option error) :=
  let* res := queryRequest s ednQuery "application/json" in
  match res with
  | (_, Some err) => ret (None, Some err)
  | (b, None) =>
  match json_UnmarshalRows E (default "" b) with
  | Err err => ret (None, Some err)
  | Ok p =>
  match firstColumns p [] with
  | Panicked msg => panic msg
  | Done r =>
  match json_Marshal E (JArray (map JAny r)) with
  | Err err => ret (None, Some err)
  | Ok response => ret (Some response, None)
  end
  end
  end
  end.

(** ** Sync

    [Sync] creates a context that expires after [timeout], starts the
    polling goroutine and blocks on [ctx.Done()].  The goroutine and the
    caller share [response] and the context.  A state of the model holds
    the clock, the shared variables and the program point of each of the
    two; a schedule interleaves their steps with the passing of time.
    Each step is one of the statements between two blocking points. *)

(** Where the polling goroutine stands. *)
Inductive Poller : Type :=
  | AtSelect (i : Z)                          (* at the [select] of attempt i *)
  | InGet (i : Z) (ready : Z) (rt : RoundTrip) (* inside [http.Get] until [ready] *)
  | Asleep (i : Z) (wake : Z)                 (* inside [time.Sleep] until [wake] *)
  | Exited.                                   (* after [break exit] *)

(** Where the caller of [Sync] stands. *)
Inductive Caller : Type :=
  | Waiting                                   (* blocked on [<-ctx.Done()] *)
  | Returned (err : option error).

Record SyncState : Type := mkSyncState {
  now : Z;                  (* nanoseconds since [context.WithTimeout] *)
  cancelled : bool;         (* [cancelFn] was called *)
  response : list string;
  poller : Poller;
  caller : Caller;
  world : World
}.

Inductive Action : Type :=
  | Tick (d : Duration)     (* time passes *)
  | PollerStep
  | CallerStep.

(** [i++] on an [int]. *)
Definition incr (i : Z) : Z :=
  if i =? 2 ^ 63 - 1 then - 2 ^ 63 else i + 1.

Section Sync.

Variable s : Storage.
Variable timeout : Duration.

Definition sync_url : string :=
  address s +:+ "/_xtdb/sync?timeout=" +:+ fmt_int (Milliseconds timeout).

(** The request that [http.Get(url)] puts on the wire. *)
Definition sync_request : Request :=
  {| Method := "GET"; URL := sync_url; RawQuery := url_Query E sync_url;
     Header := ∅; ReqBody := None |}.

(** [ctx.Done()] is closed: the deadline has passed or [cancelFn] ran. *)
Definition ctx_Done (st : SyncState) : bool :=
  cancelled st || (timeout <=? now st).

(** How long [http.Get(url)] takes in the world [w]. *)
Definition roundTripTime (url : string) (w : World) : Duration :=
  match http_NewRequest "GET" url None with
  | Err _ => 0
  | Ok req => Z.max 0 (latency E (sent w) req)
  end.

Definition Sync_init (w : World) : SyncState :=
  {| now := 0; cancelled := false; response := []; poller := AtSelect 1;
     caller := Waiting; world := w |}.

(** One step of the goroutine, when it is not blocked. *)
Definition poller_step (st : SyncState) : option SyncState :=
  match poller st with
  | AtSelect i =>
      if ctx_Done st then
        (* case <-ctx.Done(): *)
        Some {| now := now st; cancelled := cancelled st;
                response := response st ++ ["timeout reached"];
                poller := AtSelect (incr i);
                caller := caller st; world := world st |}
      else
        (* default: *)
        match (let* _ := log LDebug ("attempt=" +:+ fmt_int i
                                      +:+ " - trying sync to xtdb at " +:+ sync_url) in
               http_Get sync_url) (world st) with
        | (Done rt, w') =>
            Some {| now := now st; cancelled := cancelled st;
                    response := response st;
                    poller := InGet i (now st + roundTripTime sync_url (world st)) rt;
                    caller := caller st; world := w' |}
        | (Panicked _, _) => None
        end
  | InGet i ready rt =>
      if ready <=? now st then
        match rt with
        | Failed err =>
            Some {| now := now st; cancelled := cancelled st;
                    response := response st ++
                      ["attempt=" +:+ fmt_int i +:+ ", failed sync xtdb, error=" +:+ err];
                    poller := Asleep i (now st + 2 * Second);
                    caller := caller st; world := world st |}
        | Responded resp =>
            if negb (StatusCode resp =? 200) then
              let (data, _) := io_ReadAll (RespBody resp) in
              Some {| now := now st; cancelled := cancelled st;
                      response := response st ++
                        ["attempt=" +:+ fmt_int i +:+ ", failed sync xtdb, status="
                         +:+ fmt_int (StatusCode resp) +:+ ", response=" +:+ data];
                      poller := Asleep i (now st + 2 * Second);
                      caller := caller st; world := world st |}
            else
              (* response = nil; cancelFn(); break exit *)
              Some {| now := now st; cancelled := true;
                      response := [];
                      poller := Exited;
                      caller := caller st; world := world st |}
        end
      else None
  | Asleep i wake =>
      (* continue *)
      if wake <=? now st then
        Some {| now := now st; cancelled := cancelled st;
                response := response st;
                poller := AtSelect (incr i);
                caller := caller st; world := world st |}
      else None
  | Exited => None
  end.

(** The step of the caller: [<-ctx.Done()] unblocks and [Sync] returns. *)
Definition caller_step (st : SyncState) : option SyncState :=
  match caller st with
  | Waiting =>
      if ctx_Done st then
        Some {| now := now st; cancelled := cancelled st;
                response := response st;
                poller := poller st;
                caller :=
                  Returned
                    (if (0 <? length (response st))%nat
                     then Some (fmt_Sprintf0 E (strings_Join (response st) "; "))
                     else None);
                world := world st |}
      else None
  | Returned _ => None
  end.

Definition step (a : Action) (st : SyncState) : option SyncState :=
  match a with
  | Tick d =>
      if 0 <? d then
        Some {| now := now st + d; cancelled := cancelled st;
                response := response st; poller := poller st;
                caller := caller st; world := world st |}
      else None
  | PollerStep => poller_step st
  | CallerStep => caller_step st
  end.

(** A schedule runs from a state when each of its actions is enabled. *)
Fixpoint exec (sched : list Action) (st : SyncState) : option SyncState :=
  match sched with
  | [] => Some st
  | a :: rest =>
      match step a st with
      | Some st' => exec rest st'
      | None => None
      end
  end.

(** [Sync]: called in the world [w], it may return [err] when some
    interleaving of the goroutine and the caller ends in that return. *)
Definition Sync (w : World) (err : option error) : Prop :=
  exists sched st,
    exec sched (Sync_init w) = Some st /\ caller st = Returned err.

End Sync.

(** * Specification vocabulary *)

(** [sub] occurs in [str]. *)
Definition Contains (sub str : string) : Prop :=
  exists pre post, str = pre +:+ sub +:+ post.

(** A request on which the caller set no header. *)
Definition noHeaders (req : Request) : Prop := Header req = ∅.

(** The world right after the submit request [req] went out. *)
Definition submitted (w : World) (req : Request) : World :=
  {| sent := sent w ++ [req]; logged := [] |}.

(** The three things that hold of a submit answered with 202: it reports
    success with the receipt as decoded, a decode error is in the log,
    and so is the error of the wait for a positive transaction id. *)
Definition accepted {A : Type} (run : Res A * World) (success : A)
    (s : Storage) (w : World) (req : Request) (lvl : Level)
    (tx : TxResponse) (derr : option error) : Prop :=
  fst run = Done success
  /\ (forall err, derr = Some err ->
        In (lvl, "error decoding transaction response, err=" +:+ err)
           (logged (snd run)))
  /\ (forall err, 0 < TxID tx ->
        fst (AwaitTx s (TxID tx) (submitted w req)) = Done (Some err) ->
        In (LWarn, fmt_Sprintf0 E err) (logged (snd run))).

(** The request carries accept and content-type, both equal to [enc]. *)
Definition sameEncoding (enc : string) (req : Request) : Prop :=
  Header req !! "Accept" = Some enc /\ Header req !! "Content-Type" = Some enc.

(** The request carries accept and content-type of one encoding. *)
Definition singleEncoding (req : Request) : Prop :=
  exists enc, sameEncoding enc req.

(** The headers of a query: the body is EDN, the answer is asked for in
    [contentType]. *)
Definition queryHeaders (contentType : string) (req : Request) : Prop :=
  Header req !! "Accept" = Some contentType
  /\ Header req !! "Content-Type" = Some "application/edn".

(** The headers of an entity fetch: accept alone. *)
Definition acceptOnly (req : Request) : Prop :=
  Header req !! "Accept" = Some "application/edn"
  /\ Header req !! "Content-Type" = None.

(** The requests of a submit: none, or the submit request in encoding
    [enc] followed by the header-less requests of the wait. *)
Definition submitTrace (enc : string) (new : list Request) : Prop :=
  new = [] \/ exists req rest,
    new = req :: rest /\ sameEncoding enc req /\ Forall noHeaders rest.

(** A poll that did not succeed: a network error or a status other than
    200. *)
Definition failedPoll (rt : RoundTrip) : Prop :=
  match rt with
  | Failed _ => True
  | Responded resp => StatusCode resp <> 200
  end.

(** Every request to the store fails. *)
Definition AllPollsFail : Prop :=
  forall (history : list Request) (req : Request),
    failedPoll (transport E history req).

(** The goroutine is alive and no poll it waits for has succeeded. *)
Definition polling (st : SyncState) : Prop :=
  match poller st with
  | Exited => False
  | InGet _ _ rt => failedPoll rt
  | _ => True
  end.

(** The request of [AwaitTx]. *)
Definition await_request (s : Storage) (txID : Z) : Request :=
  {| Method := "GET";
     URL := address s +:+ "/_xtdb/await-tx?tx-id=" +:+ fmt_int txID
            +:+ "&timeout=5000";
     RawQuery := url_Query E (address s +:+ "/_xtdb/await-tx?tx-id="
                              +:+ fmt_int txID +:+ "&timeout=5000");
     Header := ∅; ReqBody := None |}.

(** The field carries a tag that names a key. *)
Definition tagged {V : Type} (f : StructField V) : Prop :=
  ednTag f <> "" /\ ednTag f <> "-".

(** The tag names a key of the payload. *)
Definition isKey (k : string) : bool :=
  negb (String.eqb k "") && negb (String.eqb k "-").

(** The value of the last field whose tag is [k]. *)
Fixpoint lastTagged {V : Type} (k : string) (fields : list (StructField V))
  : option V :=
  match fields with
  | [] => None
  | f :: rest =>
      match lastTagged k rest with
      | Some v => Some v
      | None => if String.eqb (ednTag f) k then Some (fieldValue f) else None
      end
  end.

(** What a call leaves: it returned, and the world grew by at most [k]
    requests and by some log lines. *)
Definition returnsSending {A : Type} (k : nat) (run : Res A * World) (w : World)
  : Prop :=
  exists res w',
    run = (Done res, w')
    /\ (exists new, sent w' = sent w ++ new /\ (length new <= k)%nat)
    /\ (exists extra, logged w' = logged w ++ extra).

(** The states Sync goes through when its timeout is not positive. *)
Definition expired (w : World) (st : SyncState) : Prop :=
  0 <= now st
  /\ world st = w
  /\ (exists i, poller st = AtSelect i)
  /\ Forall (fun line => line = "timeout reached") (response st).

(** Sync at its deadline of five seconds, two failures recorded. *)
Definition overdue_state : SyncState :=
  {| now := 5 * Second; cancelled := false;
     response := ["attempt=1, failed sync xtdb, error=connection refused";
                  "attempt=2, failed sync xtdb, error=connection refused"];
     poller := Asleep 2 (6 * Second);
     caller := Waiting; world := Demo.fresh |}.

(** * Properties *)

Lemma app_cons_neq {A : Type} (l : list A) (x : A) (rest : list A) :
  l <> l ++ x :: rest.
Proof.
  intros H. apply (f_equal (@length A)) in H.
  rewrite length_app in H. simpl in H. lia.
Qed.

(** *** What a call adds to the world *)

Lemma http_Get_spec (url : string) (w : World) :
  exists rt new,
    http_Get url w = (Done rt, {| sent := sent w ++ new; logged := logged w |})
    /\ Forall noHeaders new.
Proof.
  unfold http_Get, http_NewRequest.
  destruct (url_Parse E url) as [err|].
  - exists (Failed err), []. rewrite app_nil_r. destruct w. split; [reflexivity|constructor].
  - eexists _, [_]. split; [reflexivity|].
    constructor; [reflexivity|constructor].
Qed.

Lemma AwaitTx_spec (s : Storage) (txID : Z) (w : World) :
  exists aerr new,
    AwaitTx s txID w = (Done aerr, {| sent := sent w ++ new; logged := logged w |})
    /\ Forall noHeaders new.
Proof.
  unfold AwaitTx, bind.
  destruct (http_Get_spec
              (address s +:+ "/_xtdb/await-tx?tx-id=" +:+ fmt_int txID +:+ "&timeout=5000") w)
    as (rt & new & -> & Hnew).
  destruct rt as [err|resp].
  - eexists _, new. split; [reflexivity|assumption].
  - destruct (negb (StatusCode resp =? 200)).
    + destruct (io_ReadAll (RespBody resp)) as [data rerr].
      eexists _, new. split; [reflexivity|assumption].
    + eexists _, new. split; [reflexivity|assumption].
Qed.

(** The best-effort wait always comes back: it adds header-less GETs and
    at most one warning, and it passes no error on. *)
Lemma awaitBestEffort_spec (s : Storage) (tx : TxResponse) (w : World) :
  exists new extra,
    awaitBestEffort s tx w
      = (Done tt, {| sent := sent w ++ new; logged := logged w ++ extra |})
    /\ Forall noHeaders new
    /\ (forall err, 0 < TxID tx ->
          fst (AwaitTx s (TxID tx) w) = Done (Some err) ->
          extra = [(LWarn, fmt_Sprintf0 E err)]).
Proof.
  unfold awaitBestEffort.
  destruct (0 <? TxID tx) eqn:Hpos.
  - unfold bind.
    destruct (AwaitTx_spec s (TxID tx) w) as (aerr & new & -> & Hnew).
    destruct aerr as [err|].
    + exists new, [(LWarn, fmt_Sprintf0 E err)].
      split; [reflexivity|]. split; [assumption|].
      intros err' _ H. cbn in H. congruence.
    + exists new, []. rewrite app_nil_r.
      split; [reflexivity|]. split; [assumption|].
      intros err' _ H. cbn in H. congruence.
  - exists [], []. rewrite !app_nil_r. destruct w.
    split; [reflexivity|]. split; [constructor|].
    intros err H. apply Z.ltb_ge in Hpos. lia.
Qed.

(** Runs the monadic steps that are in head position. *)
Ltac mrun :=
  repeat first
    [ progress unfold bind, ret, log, panic, client_Do
    | progress cbv beta iota
    | progress cbn [fst snd sent logged] ].

(** Runs a best-effort wait in head position, naming what it adds. *)
Ltac await_returns new extra Hrun :=
  match goal with
  | |- context [awaitBestEffort ?s ?tx ?w1] =>
      let Hnew := fresh "Hnew" in
      let Hlog := fresh "Hlog" in
      destruct (awaitBestEffort_spec s tx w1) as (new & extra & Hrun & Hnew & Hlog);
      rewrite Hrun; mrun
  end.

(** *** The empty evict batch *)

(** C5: with no identity SubmitEvictTx returns its error at once and the
    world is left as it was, so no request is issued; with at least one
    identity, and a base address that parses, the submission goes on: the
    POST carrying the evict envelope is the first request issued. *)
Theorem SubmitEvictTx_empty_guard (s : Storage) (w : World) :
  SubmitEvictTx s [] w
    = (Done (None, Some "need at least one xt/id to evict"), w)
  /\ forall (xtID : string) (xtIDs : list string),
       url_Parse E (address s +:+ "/_xtdb/submit-tx") = None ->
       exists req rest,
         sent (snd (SubmitEvictTx s (xtID :: xtIDs) w)) = sent w ++ req :: rest
         /\ Method req = "POST"
         /\ URL req = address s +:+ "/_xtdb/submit-tx"
         /\ ReqBody req = Some (fst (buildTrxEvictEdn (xtID :: xtIDs))).
Proof.
  split; [reflexivity|].
  intros xtID xtIDs Hurl.
  unfold SubmitEvictTx, http_NewRequest. rewrite Hurl.
  change (length (xtID :: xtIDs) =? 0)%nat with false. cbv iota.
  rewrite (surjective_pairing (buildTrxEvictEdn (xtID :: xtIDs))).
  change (snd (buildTrxEvictEdn (xtID :: xtIDs))) with (@None error).
  set (body := fst (buildTrxEvictEdn (xtID :: xtIDs))). clearbody body.
  cbv iota. eexists. mrun.
  destruct (transport E (sent w) _) as [err|resp]; mrun.
  - exists []. repeat split.
  - destruct (StatusCode resp =? StatusAccepted).
    + destruct (edn_DecodeTx E (RespBody resp) zeroTxResponse) as [tx derr].
      destruct derr as [err|]; mrun; await_returns new extra Hrun;
        rewrite <- app_assoc; exists new; repeat split.
    + destruct (io_ReadAll (RespBody resp)) as [data rerr]. mrun.
      exists []. repeat split.
Qed.

(** *** The sort order of an entity history *)

Lemma sortOrder_rejected (sortOrder : string) :
  sortOrder <> "asc" -> sortOrder <> "desc" ->
  negb (String.eqb sortOrder "asc") && negb (String.eqb sortOrder "desc") = true.
Proof.
  intros Hasc Hdesc.
  apply String.eqb_neq in Hasc, Hdesc. rewrite Hasc, Hdesc. reflexivity.
Qed.

Lemma sortOrder_accepted (sortOrder : string) :
  sortOrder = "asc" \/ sortOrder = "desc" ->
  negb (String.eqb sortOrder "asc") && negb (String.eqb sortOrder "desc") = false.
Proof. intros [-> | ->]; reflexivity. Qed.

(** C6: a sort order other than asc and desc makes GetEntityHistory
    return its error with the world left as it was, so without any
    request; with one of the two tokens, and a base address that parses,
    the GET is issued, and its query holds, sorted by key, the parameters
    the URL already had followed by eid, sort-order, history and
    with-docs. *)
Theorem GetEntityHistory_sortOrder_guard (s : Storage) (eid sortOrder : string)
    (withDocs : bool) (w : World) :
  (sortOrder <> "asc" -> sortOrder <> "desc" ->
   GetEntityHistory s eid sortOrder withDocs w
     = (Done (None, Some "wrong sort order input, accept 'asc' or 'desc'"), w))
  /\ (sortOrder = "asc" \/ sortOrder = "desc" ->
      url_Parse E (address s +:+ "/_xtdb/entity") = None ->
      exists req,
        sent (snd (GetEntityHistory s eid sortOrder withDocs w)) = sent w ++ [req]
        /\ Method req = "GET"
        /\ URL req = address s +:+ "/_xtdb/entity"
        /\ RawQuery req
           = Values_Encode
               (url_Query E (address s +:+ "/_xtdb/entity")
                ++ [("eid", eid); ("sort-order", sortOrder);
                    ("history", "true"); ("with-docs", fmt_bool withDocs)])).
Proof.
  split.
  - intros Hasc Hdesc. unfold GetEntityHistory.
    rewrite (sortOrder_rejected _ Hasc Hdesc). reflexivity.
  - intros Hok Hurl. unfold GetEntityHistory, http_NewRequest.
    rewrite (sortOrder_accepted _ Hok), Hurl. mrun.
    eexists. split.
    { destruct (transport E (sent w) _) as [err|resp]; mrun; [reflexivity|].
      destruct (StatusCode resp =? StatusOK).
      - destruct (io_ReadAll (RespBody resp)) as [b [err|]]; reflexivity.
      - destruct (StatusCode resp =? StatusNotFound); [reflexivity|].
        destruct (io_ReadAll (RespBody resp)) as [respErr rerr]. reflexivity. }
    split; [reflexivity|]. split; [reflexivity|].
    cbn [set_RawQuery RawQuery Header_Set]. unfold Values_Add.
    rewrite <- !app_assoc. reflexivity.
Qed.

(** *** Entities the store does not have *)

Lemma String_app_cons (c : ascii) (a b : string) :
  String c a +:+ b = String c (a +:+ b).
Proof. reflexivity. Qed.

Lemma String_app_nil_r (a : string) : a +:+ "" = a.
Proof.
  induction a as [|x a IH]; [reflexivity|]. rewrite String_app_cons, IH. reflexivity.
Qed.

Lemma Contains_suffix (pre sub : string) : Contains sub (pre +:+ sub).
Proof. exists pre, "". rewrite String_app_nil_r. reflexivity. Qed.

Lemma Contains_infix (pre sub post : string) : Contains sub (pre +:+ sub +:+ post).
Proof. exists pre, post. reflexivity. Qed.

(** C7: when the request of GetEntity, or of GetEntityHistory, is answered
    with status 404 the call returns nil bytes and a nil error; when it is
    answered with a status other than 200 and 404 the call returns an
    error whose message contains the status code in decimal. *)
Theorem entity_not_found_is_absent (s : Storage) (w : World) :
  (forall (xtId : string) (req : Request) (resp : Response),
     sent (snd (GetEntity s xtId w)) = sent w ++ [req] ->
     transport E (sent w) req = Responded resp ->
     (StatusCode resp = 404 -> fst (GetEntity s xtId w) = Done (None, None))
     /\ (StatusCode resp <> 200 -> StatusCode resp <> 404 ->
         exists err, fst (GetEntity s xtId w) = Done (None, Some err)
                     /\ Contains (fmt_int (StatusCode resp)) err))
  /\ (forall (eid sortOrder : string) (withDocs : bool)
             (req : Request) (resp : Response),
     sent (snd (GetEntityHistory s eid sortOrder withDocs w)) = sent w ++ [req] ->
     transport E (sent w) req = Responded resp ->
     (StatusCode resp = 404 ->
      fst (GetEntityHistory s eid sortOrder withDocs w) = Done (None, None))
     /\ (StatusCode resp <> 200 -> StatusCode resp <> 404 ->
         exists err,
           fst (GetEntityHistory s eid sortOrder withDocs w) = Done (None, Some err)
           /\ Contains (fmt_int (StatusCode resp)) err)).
Proof.
  split.
  - intros xtId req resp. unfold GetEntity, http_NewRequest.
    destruct (url_Parse E (address s +:+ "/_xtdb/entity")) as [perr|]; mrun.
    { intros H. exfalso. exact (app_cons_neq _ _ _ H). }
    set (req0 := set_RawQuery _ _).
    intros Hsent Hrt.
    assert (Hreq : req0 = req).
    { revert Hsent. destruct (transport E (sent w) req0) as [err|r]; mrun.
      - intros Hsent. apply app_inv_head in Hsent. congruence.
      - destruct (StatusCode r =? StatusOK);
          [destruct (io_ReadAll (RespBody r))|destruct (StatusCode r =? StatusNotFound)];
          mrun; intros Hsent; apply app_inv_head in Hsent; congruence. }
    rewrite Hreq, Hrt. mrun. unfold StatusOK, StatusNotFound. split.
    + intros ->. reflexivity.
    + intros H200 H404.
      apply Z.eqb_neq in H200, H404. rewrite H200, H404.
      eexists. split; [reflexivity|]. apply Contains_suffix.
  - intros eid sortOrder withDocs req resp. unfold GetEntityHistory, http_NewRequest.
    destruct (negb (String.eqb sortOrder "asc") && negb (String.eqb sortOrder "desc")); mrun.
    { intros H. exfalso. exact (app_cons_neq _ _ _ H). }
    destruct (url_Parse E (address s +:+ "/_xtdb/entity")) as [perr|]; mrun.
    { intros H. exfalso. exact (app_cons_neq _ _ _ H). }
    set (req0 := set_RawQuery _ _).
    intros Hsent Hrt.
    assert (Hreq : req0 = req).
    { revert Hsent. destruct (transport E (sent w) req0) as [err|r]; mrun.
      - intros Hsent. apply app_inv_head in Hsent. congruence.
      - destruct (StatusCode r =? StatusOK);
          [destruct (io_ReadAll (RespBody r)) as [b [rerr|]]
          |destruct (StatusCode r =? StatusNotFound);
           [|destruct (io_ReadAll (RespBody r))]];
          mrun; intros Hsent; apply app_inv_head in Hsent; congruence. }
    rewrite Hreq, Hrt. mrun. unfold StatusOK, StatusNotFound. split.
    + intros ->. reflexivity.
    + intros H200 H404.
      apply Z.eqb_neq in H200, H404. rewrite H200, H404.
      destruct (io_ReadAll (RespBody resp)) as [respErr rerr]. mrun.
      eexists. split; [reflexivity|].
      apply Contains_infix.
Qed.

(** *** Records that cannot be encoded *)

Lemma buildTrxPutEdn_loop_fails (trxs : list (TxEdnStruct E)) :
  (exists tx err, In tx trxs /\ edn_Marshal E tx = Err err) ->
  exists tx err,
    In tx trxs /\ edn_Marshal E tx = Err err
    /\ forall trxVector, buildTrxPutEdn_loop trxs trxVector = ("", Some err).
Proof.
  induction trxs as [|tx0 rest IH]; intros (tx & err & Hin & Herr).
  - destruct Hin.
  - destruct (edn_Marshal E tx0) as [txEdn|err0] eqn:H0.
    + destruct Hin as [->|Hin]; [congruence|].
      destruct (IH (ex_intro _ tx (ex_intro _ err (conj Hin Herr))))
        as (tx' & err' & Hin' & Herr' & Hloop).
      exists tx', err'. split; [right; exact Hin'|]. split; [exact Herr'|].
      intros vec. cbn. rewrite H0. apply Hloop.
    + exists tx0, err0. split; [left; reflexivity|]. split; [exact H0|].
      intros vec. cbn. rewrite H0. reflexivity.
Qed.

(** C8: when some record of the batch cannot be marshalled to EDN,
    buildTrxPutEdn returns the empty string together with the encoding
    error of a record of the batch, and SubmitPutTx returns that error
    with the world left as it was: no request has been issued. *)
Theorem SubmitPutTx_encoding_error (s : Storage) (trxs : list (TxEdnStruct E))
    (w : World) :
  (exists tx err, In tx trxs /\ edn_Marshal E tx = Err err) ->
  exists tx err,
    In tx trxs /\ edn_Marshal E tx = Err err
    /\ buildTrxPutEdn trxs = ("", Some err)
    /\ SubmitPutTx s trxs w = (Done (None, Some err), w).
Proof.
  intros H. destruct (buildTrxPutEdn_loop_fails trxs H) as (tx & err & Hin & Herr & Hloop).
  exists tx, err. split; [exact Hin|]. split; [exact Herr|].
  assert (Hb : buildTrxPutEdn trxs = ("", Some err)) by apply Hloop.
  split; [exact Hb|].
  unfold SubmitPutTx. rewrite Hb. reflexivity.
Qed.

(** *** Accepted submissions *)

Lemma app_cons_inv {A : Type} (l : list A) (x y : A) (r1 r2 : list A) :
  l ++ x :: r1 = l ++ y :: r2 -> x = y.
Proof. intros H. apply app_inv_head in H. congruence. Qed.

(** What AwaitTx returns depends on the requests sent so far, not on the
    log. *)
Lemma AwaitTx_fst_sent (s : Storage) (txID : Z) (w1 w2 : World) :
  sent w1 = sent w2 -> fst (AwaitTx s txID w1) = fst (AwaitTx s txID w2).
Proof.
  intros Hs. unfold AwaitTx, http_Get, http_NewRequest.
  destruct (url_Parse E _) as [perr|]; mrun; [reflexivity|].
  rewrite Hs.
  destruct (transport E (sent w2) _) as [err|resp]; [reflexivity|].
  destruct (negb (StatusCode resp =? 200)); [|reflexivity].
  destruct (io_ReadAll (RespBody resp)). reflexivity.
Qed.

(** Closes a branch in which no request, or another answer, came. *)
Ltac not_issued :=
  let H := fresh "H" in
  intros H;
  first [ exfalso; exact (app_cons_neq _ _ _ H)
        | exfalso; rewrite <- ?app_assoc in H; apply app_cons_inv in H; congruence ].

(** After the 202 branch has been run: the request issued is the one of
    the hypothesis, and the three parts of [accepted] follow. *)
Ltac accepted_branch Hrt Hrt0 Hdec Hlog :=
  let Hsent := fresh "Hsent" in
  let Hreq := fresh "Hreq" in
  intros Hsent; rewrite <- app_assoc in Hsent; apply app_cons_inv in Hsent as Hreq;
  rewrite Hreq, Hrt in Hrt0; injection Hrt0 as <-;
  rewrite Hdec; unfold accepted; mrun;
  split; [reflexivity|]; split;
  [ intros ? [= <-] || (intros ? [=]); apply in_or_app; left; apply in_or_app; right; left; reflexivity
  | intros e Hpos Hawait; apply in_or_app; right;
    rewrite (Hlog e Hpos); [left; reflexivity|];
    rewrite <- Hawait; apply AwaitTx_fst_sent; rewrite Hreq; reflexivity ].

Lemma SubmitPutTx_accepted (s : Storage) (w : World) (req : Request)
    (resp : Response) (trxs : list (TxEdnStruct E)) (rest : list Request) :
  transport E (sent w) req = Responded resp ->
  StatusCode resp = 202 ->
  sent (snd (SubmitPutTx s trxs w)) = sent w ++ req :: rest ->
  let (tx, derr) := edn_DecodeTx E (RespBody resp) zeroTxResponse in
  accepted (SubmitPutTx s trxs w) (Some tx, None) s w req LWarn tx derr.
Proof.
  intros Hrt H202. unfold SubmitPutTx, http_NewRequest.
  destruct (buildTrxPutEdn trxs) as [body [berr|]]; mrun; [not_issued|].
  destruct (url_Parse E _) as [perr|]; mrun; [not_issued|].
  set (req0 := Header_Set _ _ _).
  destruct (transport E (sent w) req0) as [err|r] eqn:Hrt0; mrun; [not_issued|].
  destruct (StatusCode r =? StatusAccepted) eqn:Hst.
  - destruct (edn_DecodeTx E (RespBody r) zeroTxResponse) as [tx derr] eqn:Hdec.
    destruct derr as [derr|]; mrun; await_returns new extra Hrun.
    + accepted_branch Hrt Hrt0 Hdec Hlog.
    + accepted_branch Hrt Hrt0 Hdec Hlog.
  - destruct (io_ReadAll (RespBody r)) as [data rerr]. mrun.
    intros Hsent. apply app_cons_inv in Hsent.
    rewrite Hsent, Hrt in Hrt0. injection Hrt0 as <-.
    unfold StatusAccepted in Hst. rewrite H202 in Hst. discriminate.
Qed.

Lemma SubmitEvictTx_accepted (s : Storage) (w : World) (req : Request)
    (resp : Response) (xtIDs : list string) (rest : list Request) :
  transport E (sent w) req = Responded resp ->
  StatusCode resp = 202 ->
  sent (snd (SubmitEvictTx s xtIDs w)) = sent w ++ req :: rest ->
  let (tx, derr) := edn_DecodeTx E (RespBody resp) zeroTxResponse in
  accepted (SubmitEvictTx s xtIDs w) (Some tx, None) s w req LInfo tx derr.
Proof.
  intros Hrt H202. unfold SubmitEvictTx, http_NewRequest.
  destruct (length xtIDs =? 0)%nat; mrun; [not_issued|].
  destruct (buildTrxEvictEdn xtIDs) as [body [berr|]]; mrun; [not_issued|].
  destruct (url_Parse E _) as [perr|]; mrun; [not_issued|].
  set (req0 := Header_Set _ _ _).
  destruct (transport E (sent w) req0) as [err|r] eqn:Hrt0; mrun; [not_issued|].
  destruct (StatusCode r =? StatusAccepted) eqn:Hst.
  - destruct (edn_DecodeTx E (RespBody r) zeroTxResponse) as [tx derr] eqn:Hdec.
    destruct derr as [derr|]; mrun; await_returns new extra Hrun.
    + accepted_branch Hrt Hrt0 Hdec Hlog.
    + accepted_branch Hrt Hrt0 Hdec Hlog.
  - destruct (io_ReadAll (RespBody r)) as [data rerr]. mrun.
    intros Hsent. apply app_cons_inv in Hsent.
    rewrite Hsent, Hrt in Hrt0. injection Hrt0 as <-.
    unfold StatusAccepted in Hst. rewrite H202 in Hst. discriminate.
Qed.

Lemma PersistEntities_accepted (s : Storage) (w : World) (req : Request)
    (resp : Response) (payloads : list (Payload E)) (rest : list Request) :
  transport E (sent w) req = Responded resp ->
  StatusCode resp = 202 ->
  sent (snd (PersistEntities s payloads w)) = sent w ++ req :: rest ->
  let (tx, derr) := json_DecodeTx E (RespBody resp) zeroTxResponse in
  accepted (PersistEntities s payloads w) (TxID tx, None) s w req LWarn tx derr.
Proof.
  intros Hrt H202. unfold PersistEntities, http_NewRequest.
  destruct (buildPersistPayload payloads) as [body [berr|]]; mrun; [not_issued|].
  destruct (url_Parse E _) as [perr|]; mrun; [not_issued|].
  set (req0 := Header_Set _ _ _).
  destruct (transport E (sent w) req0) as [err|r] eqn:Hrt0; mrun; [not_issued|].
  destruct (StatusCode r =? StatusAccepted) eqn:Hst.
  - destruct (json_DecodeTx E (RespBody r) zeroTxResponse) as [tx derr] eqn:Hdec.
    destruct derr as [derr|]; mrun; await_returns new extra Hrun.
    + accepted_branch Hrt Hrt0 Hdec Hlog.
    + accepted_branch Hrt Hrt0 Hdec Hlog.
  - mrun. intros Hsent. apply app_cons_inv in Hsent.
    rewrite Hsent, Hrt in Hrt0. injection Hrt0 as <-.
    unfold StatusAccepted in Hst. rewrite H202 in Hst. discriminate.
Qed.

(** C4: when the submit request of SubmitPutTx, SubmitEvictTx or
    PersistEntities is answered with status 202, the call returns the
    receipt as the decoder left it (its transaction id for
    PersistEntities) and a nil error, whatever the decoder and the wait
    for the transaction report; a decode error and the error of AwaitTx
    for a positive transaction id end up in the log. *)
Theorem submit_accepted_is_success (s : Storage) (w : World) (req : Request)
    (resp : Response) :
  transport E (sent w) req = Responded resp ->
  StatusCode resp = 202 ->
  (forall trxs rest,
     sent (snd (SubmitPutTx s trxs w)) = sent w ++ req :: rest ->
     let (tx, derr) := edn_DecodeTx E (RespBody resp) zeroTxResponse in
     accepted (SubmitPutTx s trxs w) (Some tx, None) s w req LWarn tx derr)
  /\ (forall xtIDs rest,
     sent (snd (SubmitEvictTx s xtIDs w)) = sent w ++ req :: rest ->
     let (tx, derr) := edn_DecodeTx E (RespBody resp) zeroTxResponse in
     accepted (SubmitEvictTx s xtIDs w) (Some tx, None) s w req LInfo tx derr)
  /\ (forall payloads rest,
     sent (snd (PersistEntities s payloads w)) = sent w ++ req :: rest ->
     let (tx, derr) := json_DecodeTx E (RespBody resp) zeroTxResponse in
     accepted (PersistEntities s payloads w) (TxID tx, None) s w req LWarn tx derr).
Proof.
  intros Hrt H202. split; [|split].
  - intros trxs rest. exact (SubmitPutTx_accepted s w req resp trxs rest Hrt H202).
  - intros xtIDs rest. exact (SubmitEvictTx_accepted s w req resp xtIDs rest Hrt H202).
  - intros payloads rest. exact (PersistEntities_accepted s w req resp payloads rest Hrt H202).
Qed.

(** *** The first column of every row *)

Lemma firstColumns_total {A : Type} (p : list (list A)) :
  Forall (fun row => row <> []) p ->
  forall r, exists heads,
    firstColumns p r = Done (r ++ heads)
    /\ length heads = length p
    /\ forall (i : nat) (row : list A),
         p !! i = Some row -> heads !! i = row !! 0%nat.
Proof.
  induction 1 as [|row rest Hrow Hrest IH]; intros r.
  - exists []. rewrite app_nil_r. split; [reflexivity|]. split; [reflexivity|].
    intros i row Hi. destruct i; discriminate.
  - destruct row as [|x row]; [contradiction|].
    destruct (IH (r ++ [x])) as (heads & Hrun & Hlen & Hnth).
    exists (x :: heads). cbn. rewrite Hrun, <- app_assoc.
    split; [reflexivity|]. split; [cbn; rewrite Hlen; reflexivity|].
    intros [|i] row' Hi; cbn in *.
    + injection Hi as <-. reflexivity.
    + apply Hnth. exact Hi.
Qed.

Lemma firstColumns_panics {A : Type} (p : list (list A)) :
  In [] p -> forall r, exists msg, firstColumns p r = Panicked msg.
Proof.
  induction p as [|row rest IH]; intros Hin r; [destruct Hin|].
  destruct row as [|x row].
  - eexists. reflexivity.
  - destruct Hin as [Hin|Hin]; [discriminate|]. cbn. apply IH. exact Hin.
Qed.

Lemma rows_nonempty {A : Type} (p : list (list A)) (M : nat) :
  (1 < M)%nat -> Forall (fun row => length row = M) p ->
  Forall (fun row => row <> []) p.
Proof.
  intros HM Hrows. eapply Forall_impl; [exact Hrows|].
  intros row Hlen ->. cbn in Hlen. lia.
Qed.

(** C2: when the body of the query response decodes into rows that all
    have M > 1 columns, Query hands to the EDN encoder, and QueryAsJson to
    the JSON encoder, a sequence with one element per row, the i-th being
    the first column of the i-th row, and returns what the encoder
    returns. *)
Theorem Query_first_columns (s : Storage) (ednQuery b : string) (w w' : World)
    (M : nat) :
  (1 < M)%nat ->
  (forall p : list (list (EdnMap E)),
     queryRequest s ednQuery "application/edn" w = (Done (Some b, None), w') ->
     edn_UnmarshalRows E b = Ok p ->
     Forall (fun row => length row = M) p ->
     exists r,
       length r = length p
       /\ (forall (i : nat) (row : list (EdnMap E)),
             p !! i = Some row -> r !! i = row !! 0%nat)
       /\ Query s ednQuery w
          = (Done match edn_MarshalMaps E r with
                  | Ok response => (Some response, None)
                  | Err err => (None, Some err)
                  end, w'))
  /\ (forall p : list (list (Payload E)),
     queryRequest s ednQuery "application/json" w = (Done (Some b, None), w') ->
     json_UnmarshalRows E b = Ok p ->
     Forall (fun row => length row = M) p ->
     exists r,
       length r = length p
       /\ (forall (i : nat) (row : list (Payload E)),
             p !! i = Some row -> r !! i = row !! 0%nat)
       /\ QueryAsJson s ednQuery w
          = (Done match json_Marshal E (JArray (map JAny r)) with
                  | Ok response => (Some response, None)
                  | Err err => (None, Some err)
                  end, w')).
Proof.
  intros HM. split; intros p Hreq Hdec Hrows;
    destruct (firstColumns_total p (rows_nonempty p M HM Hrows) [])
      as (r & Hrun & Hlen & Hnth);
    exists r; (split; [exact Hlen|]); (split; [exact Hnth|]).
  - unfold Query, bind. rewrite Hreq. cbv beta iota. cbn [default from_option id].
    rewrite Hdec, Hrun. cbn [app].
    destruct (edn_MarshalMaps E r); reflexivity.
  - unfold QueryAsJson, bind. rewrite Hreq. cbv beta iota. cbn [default from_option id].
    rewrite Hdec, Hrun. cbn [app].
    destruct (json_Marshal E (JArray (map JAny r))); reflexivity.
Qed.

(** C10: the loop over the decoded rows comes to an end without a panic
    exactly when no row is empty; when the decoded result has a row with
    no column, Query and QueryAsJson panic on l[0] instead of returning
    an error. *)
Theorem Query_empty_row_panics (s : Storage) (ednQuery b : string)
    (w w' : World) :
  (forall (A : Type) (p : list (list A)),
     (exists r, firstColumns p [] = Done r) <-> Forall (fun row => row <> []) p)
  /\ (forall p : list (list (EdnMap E)),
     queryRequest s ednQuery "application/edn" w = (Done (Some b, None), w') ->
     edn_UnmarshalRows E b = Ok p ->
     In [] p ->
     exists msg, Query s ednQuery w = (Panicked msg, w'))
  /\ (forall p : list (list (Payload E)),
     queryRequest s ednQuery "application/json" w = (Done (Some b, None), w') ->
     json_UnmarshalRows E b = Ok p ->
     In [] p ->
     exists msg, QueryAsJson s ednQuery w = (Panicked msg, w')).
Proof.
  split; [|split].
  - intros A p. split.
    + intros [r Hrun]. apply List.Forall_forall. intros row Hin ->.
      destruct (firstColumns_panics p Hin []) as [msg Hp]. congruence.
    + intros Hall. destruct (firstColumns_total p Hall []) as (heads & Hrun & _).
      exists heads. exact Hrun.
  - intros p Hreq Hdec Hin.
    destruct (firstColumns_panics p Hin []) as [msg Hp].
    exists msg. unfold Query, bind. rewrite Hreq. cbv beta iota. cbn [default from_option id].
    rewrite Hdec, Hp.
    reflexivity.
  - intros p Hreq Hdec Hin.
    destruct (firstColumns_panics p Hin []) as [msg Hp].
    exists msg. unfold QueryAsJson, bind. rewrite Hreq. cbv beta iota. cbn [default from_option id].
    rewrite Hdec, Hp.
    reflexivity.
Qed.

(** *** Headers *)

Lemma Header_Set_lookup (req : Request) (key value k : string) :
  Header (Header_Set req key value) !! k
  = if decide (CanonicalMIMEHeaderKey key = k) then Some value else Header req !! k.
Proof. unfold Header_Set. cbn [Header]. apply lookup_insert. Qed.

Lemma submit_headers (enc : string) (req : Request) :
  sameEncoding enc (Header_Set (Header_Set req "content-type" enc) "accept" enc).
Proof. split; rewrite !Header_Set_lookup; reflexivity. Qed.

Lemma query_headers (contentType : string) (req : Request) :
  queryHeaders contentType
    (Header_Set (Header_Set req "accept" contentType) "content-type" "application/edn").
Proof. split; rewrite !Header_Set_lookup; reflexivity. Qed.

Lemma entity_headers (req : Request) (q : Values) :
  Header req = ∅ ->
  acceptOnly (set_RawQuery (Header_Set req "accept" "application/edn") q).
Proof.
  intros Hreq. split; cbn [set_RawQuery Header]; rewrite Header_Set_lookup, Hreq;
    reflexivity.
Qed.

(** Names the requests added when nothing, or one request, went out. *)
Ltac adds_none := exists []; rewrite app_nil_r; split; [reflexivity|].
Ltac adds_one := eexists [_]; split; [reflexivity|].

Lemma submitTrace_one (enc : string) (req : Request) (rest : list Request) :
  sameEncoding enc req -> Forall noHeaders rest -> submitTrace enc (req :: rest).
Proof. intros Hreq Hrest. right. exists req, rest. auto. Qed.

Lemma SubmitPutTx_trace (s : Storage) (trxs : list (TxEdnStruct E)) (w : World) :
  exists new,
    sent (snd (SubmitPutTx s trxs w)) = sent w ++ new
    /\ submitTrace "application/edn" new.
Proof.
  unfold SubmitPutTx, http_NewRequest.
  destruct (buildTrxPutEdn trxs) as [body [berr|]]; mrun; [adds_none; left; reflexivity|].
  destruct (url_Parse E _) as [perr|]; mrun; [adds_none; left; reflexivity|].
  destruct (transport E (sent w) _) as [err|r]; mrun.
  { adds_one. apply submitTrace_one; [apply submit_headers|constructor]. }
  destruct (StatusCode r =? StatusAccepted).
  - destruct (edn_DecodeTx E (RespBody r) zeroTxResponse) as [tx derr].
    destruct derr as [derr|]; mrun; await_returns new extra Hrun;
      rewrite <- app_assoc; eexists; (split; [reflexivity|]);
      apply submitTrace_one; [apply submit_headers|assumption|apply submit_headers|assumption].
  - destruct (io_ReadAll (RespBody r)) as [data rerr]. mrun.
    adds_one. apply submitTrace_one; [apply submit_headers|constructor].
Qed.

Lemma SubmitEvictTx_trace (s : Storage) (xtIDs : list string) (w : World) :
  exists new,
    sent (snd (SubmitEvictTx s xtIDs w)) = sent w ++ new
    /\ submitTrace "application/edn" new.
Proof.
  unfold SubmitEvictTx, http_NewRequest.
  destruct (length xtIDs =? 0)%nat; mrun; [adds_none; left; reflexivity|].
  destruct (buildTrxEvictEdn xtIDs) as [body [berr|]]; mrun; [adds_none; left; reflexivity|].
  destruct (url_Parse E _) as [perr|]; mrun; [adds_none; left; reflexivity|].
  destruct (transport E (sent w) _) as [err|r]; mrun.
  { adds_one. apply submitTrace_one; [apply submit_headers|constructor]. }
  destruct (StatusCode r =? StatusAccepted).
  - destruct (edn_DecodeTx E (RespBody r) zeroTxResponse) as [tx derr].
    destruct derr as [derr|]; mrun; await_returns new extra Hrun;
      rewrite <- app_assoc; eexists; (split; [reflexivity|]);
      apply submitTrace_one; [apply submit_headers|assumption|apply submit_headers|assumption].
  - destruct (io_ReadAll (RespBody r)) as [data rerr]. mrun.
    adds_one. apply submitTrace_one; [apply submit_headers|constructor].
Qed.

Lemma PersistEntities_trace (s : Storage) (payloads : list (Payload E)) (w : World) :
  exists new,
    sent (snd (PersistEntities s payloads w)) = sent w ++ new
    /\ submitTrace "application/json" new.
Proof.
  unfold PersistEntities, http_NewRequest.
  destruct (buildPersistPayload payloads) as [body [berr|]]; mrun;
    [adds_none; left; reflexivity|].
  destruct (url_Parse E _) as [perr|]; mrun; [adds_none; left; reflexivity|].
  destruct (transport E (sent w) _) as [err|r]; mrun.
  { adds_one. apply submitTrace_one; [apply submit_headers|constructor]. }
  destruct (StatusCode r =? StatusAccepted).
  - destruct (json_DecodeTx E (RespBody r) zeroTxResponse) as [tx derr].
    destruct derr as [derr|]; mrun; await_returns new extra Hrun;
      rewrite <- app_assoc; eexists; (split; [reflexivity|]);
      apply submitTrace_one; [apply submit_headers|assumption|apply submit_headers|assumption].
  - mrun. adds_one. apply submitTrace_one; [apply submit_headers|constructor].
Qed.

Lemma queryRequest_trace (s : Storage) (ednQuery contentType : string) (w : World) :
  exists new,
    sent (snd (queryRequest s ednQuery contentType w)) = sent w ++ new
    /\ Forall (queryHeaders contentType) new.
Proof.
  unfold queryRequest, http_NewRequest.
  destruct (url_Parse E _) as [perr|]; mrun; [adds_none; constructor|].
  destruct (transport E (sent w) _) as [err|r]; mrun.
  - adds_one. constructor; [apply query_headers|constructor].
  - destruct (io_ReadAll (RespBody r)) as [b [rerr|]]; mrun;
      adds_one; (constructor; [apply query_headers|constructor]).
Qed.

Lemma Query_sent (s : Storage) (ednQuery : string) (w : World) :
  sent (snd (Query s ednQuery w))
  = sent (snd (queryRequest s ednQuery "application/edn" w)).
Proof.
  unfold Query, bind.
  destruct (queryRequest s ednQuery "application/edn" w) as [[[b [err|]]|msg] w'];
    mrun; try reflexivity.
  destruct (edn_UnmarshalRows E (default "" b)) as [p|err]; [|reflexivity].
  destruct (firstColumns p []) as [r|msg]; [|reflexivity].
  destruct (edn_MarshalMaps E r); reflexivity.
Qed.

Lemma QueryAsJson_sent (s : Storage) (ednQuery : string) (w : World) :
  sent (snd (QueryAsJson s ednQuery w))
  = sent (snd (queryRequest s ednQuery "application/json" w)).
Proof.
  unfold QueryAsJson, bind.
  destruct (queryRequest s ednQuery "application/json" w) as [[[b [err|]]|msg] w'];
    mrun; try reflexivity.
  destruct (json_UnmarshalRows E (default "" b)) as [p|err]; [|reflexivity].
  destruct (firstColumns p []) as [r|msg]; [|reflexivity].
  destruct (json_Marshal E (JArray (map JAny r))); reflexivity.
Qed.

Lemma GetEntity_trace (s : Storage) (xtId : string) (w : World) :
  exists new,
    sent (snd (GetEntity s xtId w)) = sent w ++ new /\ Forall acceptOnly new.
Proof.
  unfold GetEntity, http_NewRequest.
  destruct (url_Parse E _) as [perr|]; mrun; [adds_none; constructor|].
  destruct (transport E (sent w) _) as [err|r]; mrun.
  - adds_one. constructor; [apply entity_headers; reflexivity|constructor].
  - destruct (StatusCode r =? StatusOK);
      [destruct (io_ReadAll (RespBody r))|destruct (StatusCode r =? StatusNotFound)];
      mrun; adds_one; (constructor; [apply entity_headers; reflexivity|constructor]).
Qed.

Lemma GetEntityHistory_trace (s : Storage) (eid sortOrder : string)
    (withDocs : bool) (w : World) :
  exists new,
    sent (snd (GetEntityHistory s eid sortOrder withDocs w)) = sent w ++ new
    /\ Forall acceptOnly new.
Proof.
  unfold GetEntityHistory, http_NewRequest.
  destruct (negb (String.eqb sortOrder "asc") && negb (String.eqb sortOrder "desc"));
    mrun; [adds_none; constructor|].
  destruct (url_Parse E _) as [perr|]; mrun; [adds_none; constructor|].
  destruct (transport E (sent w) _) as [err|r]; mrun.
  - adds_one. constructor; [apply entity_headers; reflexivity|constructor].
  - destruct (StatusCode r =? StatusOK);
      [destruct (io_ReadAll (RespBody r)) as [b [rerr|]]
      |destruct (StatusCode r =? StatusNotFound);
       [|destruct (io_ReadAll (RespBody r))]];
      mrun; adds_one; (constructor; [apply entity_headers; reflexivity|constructor]).
Qed.

(** Splits a step into the statement that was run. *)
Ltac step_inv H :=
  unfold step, poller_step, caller_step in H;
  repeat match type of H with
  | context [match ?x with _ => _ end] => destruct x eqn:?
  end; try discriminate; injection H as <-.

Lemma Sync_step_trace (s : Storage) (timeout : Duration) (a : Action)
    (st st' : SyncState) :
  step s timeout a st = Some st' ->
  exists new,
    sent (world st') = sent (world st) ++ new /\ Forall noHeaders new.
Proof.
  intros Hstep.
  destruct a; step_inv Hstep; cbn [world];
    try (exists []; rewrite app_nil_r; split; [reflexivity|constructor]).
  match goal with
  | H : _ (world st) = (Done _, ?w') |- _ =>
      revert H; mrun;
      match goal with
      | |- context [http_Get ?url ?w1] =>
          destruct (http_Get_spec url w1) as (rt0 & new & -> & Hnew)
      end;
      intros [= _ <-]; exists new; split; [reflexivity|exact Hnew]
  end.
Qed.

(** C3 (as amended): the submit request of SubmitPutTx and of
    SubmitEvictTx carries accept and content-type application/edn, that of
    PersistEntities carries both as application/json, and the requests of
    the best-effort wait that may follow carry no header; a query request
    always carries content-type application/edn, and as accept the
    encoding asked for the result; GetEntity and GetEntityHistory set
    accept to application/edn and no content-type; the GET of AwaitTx
    and the polls of Sync set no header. *)
Theorem headers_by_operation (s : Storage) (w : World) :
  (forall trxs, exists new,
     sent (snd (SubmitPutTx s trxs w)) = sent w ++ new
     /\ submitTrace "application/edn" new)
  /\ (forall xtIDs, exists new,
     sent (snd (SubmitEvictTx s xtIDs w)) = sent w ++ new
     /\ submitTrace "application/edn" new)
  /\ (forall payloads, exists new,
     sent (snd (PersistEntities s payloads w)) = sent w ++ new
     /\ submitTrace "application/json" new)
  /\ (forall ednQuery contentType, exists new,
     sent (snd (queryRequest s ednQuery contentType w)) = sent w ++ new
     /\ Forall (queryHeaders contentType) new)
  /\ (forall ednQuery, exists new,
     sent (snd (Query s ednQuery w)) = sent w ++ new
     /\ Forall (queryHeaders "application/edn") new)
  /\ (forall ednQuery, exists new,
     sent (snd (QueryAsJson s ednQuery w)) = sent w ++ new
     /\ Forall (queryHeaders "application/json") new)
  /\ (forall xtId, exists new,
     sent (snd (GetEntity s xtId w)) = sent w ++ new /\ Forall acceptOnly new)
  /\ (forall eid sortOrder withDocs, exists new,
     sent (snd (GetEntityHistory s eid sortOrder withDocs w)) = sent w ++ new
     /\ Forall acceptOnly new)
  /\ (forall txID, exists new,
     sent (snd (AwaitTx s txID w)) = sent w ++ new /\ Forall noHeaders new)
  /\ (forall timeout a st st',
     step s timeout a st = Some st' ->
     exists new,
       sent (world st') = sent (world st) ++ new /\ Forall noHeaders new).
Proof.
  split; [|split; [|split; [|split; [|split; [|split; [|split; [|split; [|split]]]]]]]].
  - intros trxs. apply SubmitPutTx_trace.
  - intros xtIDs. apply SubmitEvictTx_trace.
  - intros payloads. apply PersistEntities_trace.
  - intros ednQuery contentType. apply queryRequest_trace.
  - intros ednQuery. rewrite Query_sent. apply queryRequest_trace.
  - intros ednQuery. rewrite QueryAsJson_sent. apply queryRequest_trace.
  - intros xtId. apply GetEntity_trace.
  - intros eid sortOrder withDocs. apply GetEntityHistory_trace.
  - intros txID. destruct (AwaitTx_spec s txID w) as (aerr & new & Hrun & Hnew).
    exists new. rewrite Hrun. split; [reflexivity|exact Hnew].
  - intros timeout a st st'. apply Sync_step_trace.
Qed.

(** *** Sync *)

Section SyncProperties.

Variable s : Storage.
Variable timeout : Duration.

Lemma exec_invariant (P : SyncState -> Prop) :
  (forall a st st', P st -> step s timeout a st = Some st' -> P st') ->
  forall sched st st', P st -> exec s timeout sched st = Some st' -> P st'.
Proof.
  intros Hstep. induction sched as [|a rest IH]; intros st st' HP Hrun; cbn in Hrun.
  - injection Hrun as <-. exact HP.
  - destruct (step s timeout a st) as [st1|] eqn:Ha; [|discriminate].
    exact (IH st1 st' (Hstep a st st1 HP Ha) Hrun).
Qed.

(** The first poll of an attempt: what [http.Get] answers in a store on
    which every request fails is a failure. *)
Lemma poll_fails (i : Z) (w w' : World) (rt : RoundTrip) :
  AllPollsFail ->
  (let* _ := log LDebug ("attempt=" +:+ fmt_int i +:+ " - trying sync to xtdb at "
                         +:+ sync_url s timeout) in
   http_Get (sync_url s timeout)) w = (Done rt, w') ->
  failedPoll rt.
Proof.
  intros Hfail. unfold http_Get, http_NewRequest.
  destruct (url_Parse E (sync_url s timeout)) as [perr|]; mrun.
  - intros [= <- _]. exact I.
  - intros [= <- _]. apply Hfail.
Qed.

Lemma polling_step (a : Action) (st st' : SyncState) :
  AllPollsFail -> polling st -> step s timeout a st = Some st' -> polling st'.
Proof.
  intros Hfail Hpol Hstep. unfold polling in *.
  destruct a; step_inv Hstep; cbn [poller] in *; try exact I; try assumption.
  - eapply poll_fails; eassumption.
  - cbn in Hpol.
    match goal with H : negb _ = false |- _ => apply negb_false_iff, Z.eqb_eq in H end.
    contradiction.
Qed.

Lemma poll_returns (i : Z) (w : World) :
  exists rt w',
    (let* _ := log LDebug ("attempt=" +:+ fmt_int i +:+ " - trying sync to xtdb at "
                           +:+ sync_url s timeout) in
     http_Get (sync_url s timeout)) w = (Done rt, w').
Proof.
  unfold http_Get. destruct (http_NewRequest "GET" (sync_url s timeout) None);
    mrun; eexists _, _; reflexivity.
Qed.

(** A goroutine that is alive gets to run again once enough time has
    passed. *)
Lemma polling_goes_on (st : SyncState) :
  polling st ->
  exists wait st', exec s timeout [Tick wait; PollerStep] st = Some st'.
Proof.
  unfold polling. intros Hpol.
  destruct (poller st) as [i|i ready rt|i wake|] eqn:Hp; [| | |contradiction].
  - exists 1. cbn. unfold poller_step. cbn [poller]. rewrite Hp.
    destruct (ctx_Done timeout _); [eexists; reflexivity|].
    cbn [world].
    destruct (poll_returns i (world st)) as (rt & w' & ->). eexists. reflexivity.
  - exists (Z.max 1 (ready - now st)). cbn.
    destruct (0 <? Z.max 1 (ready - now st)) eqn:Hw; [|apply Z.ltb_ge in Hw; lia].
    cbn. unfold poller_step. cbn [poller now]. rewrite Hp.
    destruct (ready <=? now st + Z.max 1 (ready - now st)) eqn:Hr;
      [|apply Z.leb_gt in Hr; lia].
    destruct rt as [err|resp]; [eexists; reflexivity|].
    cbn in Hpol. apply Z.eqb_neq in Hpol. rewrite Hpol. cbn [negb].
    destruct (io_ReadAll (RespBody resp)). eexists. reflexivity.
  - exists (Z.max 1 (wake - now st)). cbn.
    destruct (0 <? Z.max 1 (wake - now st)) eqn:Hw; [|apply Z.ltb_ge in Hw; lia].
    cbn. unfold poller_step. cbn [poller now]. rewrite Hp.
    destruct (wake <=? now st + Z.max 1 (wake - now st)) eqn:Hr;
      [|apply Z.leb_gt in Hr; lia].
    eexists. reflexivity.
Qed.

(** C9, on the code: when every poll fails, the polling goroutine started
    by Sync never reaches the end of its loop, in any interleaving and
    however long after the caller has returned, and it always gets to run
    again: the loop leaks. *)
Theorem Sync_poller_never_terminates (w : World) :
  AllPollsFail ->
  forall (sched : list Action) (st : SyncState),
    exec s timeout sched (Sync_init w) = Some st ->
    poller st <> Exited
    /\ exists wait st', exec s timeout [Tick wait; PollerStep] st = Some st'.
Proof.
  intros Hfail sched st Hrun.
  assert (Hpol : polling st).
  { apply (exec_invariant polling (fun a x y => polling_step a x y Hfail)
             sched (Sync_init w) st); [exact I|exact Hrun]. }
  split; [|apply polling_goes_on; exact Hpol].
  intros Hex. unfold polling in Hpol. rewrite Hex in Hpol. exact Hpol.
Qed.

(** Once the context is done, every turn of the loop takes the
    [ctx.Done()] case, appends one more line and comes back to the
    [select]. *)
Lemma Sync_poller_spins (n : nat) :
  forall (st : SyncState) (i : Z),
    poller st = AtSelect i -> ctx_Done timeout st = true ->
    exists st' j,
      exec s timeout (repeat PollerStep n) st = Some st'
      /\ poller st' = AtSelect j
      /\ response st' = response st ++ repeat "timeout reached" n
      /\ caller st' = caller st /\ now st' = now st.
Proof.
  induction n as [|n IH]; intros st i Hp Hdone.
  - exists st, i. rewrite app_nil_r. repeat split; assumption.
  - cbn [repeat exec step]. unfold poller_step. rewrite Hp, Hdone.
    set (st1 := {| now := now st |}).
    assert (Hdone1 : ctx_Done timeout st1 = true) by exact Hdone.
    destruct (IH st1 (incr i) eq_refl Hdone1) as (st' & j & Hrun & Hp' & Hresp & Hc & Hn).
    exists st', j. split; [exact Hrun|]. split; [exact Hp'|].
    split; [|split; assumption].
    rewrite Hresp. cbn [st1 response]. rewrite <- app_assoc. reflexivity.
Qed.

(** Sync does not return before the deadline unless a poll succeeded. *)
Lemma Sync_not_before_deadline (w : World) (sched : list Action) (st : SyncState) :
  exec s timeout sched (Sync_init w) = Some st ->
  forall err, caller st = Returned err ->
    timeout <= now st \/ (cancelled st = true /\ poller st = Exited).
Proof.
  intros Hrun.
  pose (P := fun st : SyncState =>
               (cancelled st = true -> poller st = Exited)
               /\ (forall err, caller st = Returned err ->
                     timeout <= now st \/ cancelled st = true)).
  assert (HP : P st).
  { apply (exec_invariant P) with (sched := sched) (st := Sync_init w); [| |exact Hrun].
    - clear. intros a st st' [Hc Hret] Hstep.
      destruct a; step_inv Hstep; split; cbn [cancelled poller caller now] in *;
        try congruence; try (intros e He; destruct (Hret e He); [left; lia|right; assumption]);
        try (intros e He; right; reflexivity);
        try (intros Hcan; specialize (Hc Hcan); congruence).
      all: intros e _; unfold ctx_Done in *;
        match goal with H : _ || _ = true |- _ => apply orb_true_iff in H as [H|H] end;
        [right; assumption|left; apply Z.leb_le; assumption].
    - split; cbn; [discriminate|discriminate]. }
  intros err Herr. destruct HP as [Hc Hret].
  destruct (Hret err Herr) as [H|H]; [left; exact H|right; split; [exact H|exact (Hc H)]].
Qed.

(** After a successful poll the log is empty, and a caller still waiting
    returns nil at once. *)
Lemma Sync_success_discards_log (w : World) (sched : list Action) (st : SyncState) :
  exec s timeout sched (Sync_init w) = Some st ->
  poller st = Exited ->
  response st = [] /\ cancelled st = true
  /\ (caller st = Waiting ->
      exists st', step s timeout CallerStep st = Some st'
                  /\ caller st' = Returned None /\ now st' = now st).
Proof.
  intros Hrun.
  pose (P := fun st : SyncState =>
               poller st = Exited -> response st = [] /\ cancelled st = true).
  assert (HP : P st).
  { apply (exec_invariant P) with (sched := sched) (st := Sync_init w); [| |exact Hrun].
    - clear. intros a st st' HP Hstep.
      destruct a; step_inv Hstep; intros Hex; cbn [cancelled poller response] in *;
        try discriminate; try (apply HP; congruence); split; reflexivity.
    - intros Hex. discriminate. }
  intros Hex. destruct (HP Hex) as [Hresp Hcan].
  split; [exact Hresp|]. split; [exact Hcan|].
  intros Hw. cbn. unfold caller_step, ctx_Done. rewrite Hw, Hcan, Hresp. cbn.
  eexists. repeat split.
Qed.

(** C1, on the code: when the answer to the first poll takes longer than
    the timeout, the caller wakes up at the deadline, finds nothing
    recorded yet and Sync returns nil, although every poll fails: a
    timeout is reported as a success. *)
Theorem Sync_deadline_before_first_answer (w : World) :
  AllPollsFail ->
  0 < timeout ->
  url_Parse E (sync_url s timeout) = None ->
  timeout < latency E (sent w) (sync_request s timeout) ->
  Sync s timeout w None
  /\ exists st i ready rt,
    exec s timeout [PollerStep; Tick timeout; CallerStep] (Sync_init w) = Some st
    /\ caller st = Returned None
    /\ now st = timeout
    /\ cancelled st = false
    /\ poller st = InGet i ready rt /\ failedPoll rt /\ now st < ready.
Proof.
  intros Hfail Hpos Hurl Hlat.
  cut (exists st i ready rt,
         exec s timeout [PollerStep; Tick timeout; CallerStep] (Sync_init w) = Some st
         /\ caller st = Returned None
         /\ now st = timeout
         /\ cancelled st = false
         /\ poller st = InGet i ready rt /\ failedPoll rt /\ now st < ready).
  { intros H. split; [|exact H].
    destruct H as (st & _ & _ & _ & Hrun & Hret & _).
    exists [PollerStep; Tick timeout; CallerStep], st. split; assumption. }
  assert (H0 : (timeout <=? 0) = false) by (apply Z.leb_gt; lia).
  assert (Ht : (0 <? timeout) = true) by (apply Z.ltb_lt; lia).
  assert (Hd : (timeout <=? 0 + timeout) = true) by (apply Z.leb_le; lia).
  unfold exec, step, poller_step, Sync_init, ctx_Done, http_Get, roundTripTime,
    http_NewRequest.
  rewrite Hurl. fold (sync_request s timeout).
  cbn [now cancelled response poller caller world orb]. rewrite H0. mrun.
  rewrite Ht.
  unfold caller_step, ctx_Done.
  cbn [now cancelled response poller caller world orb]. rewrite Hd.
  cbn [length Nat.ltb Nat.leb].
  eexists _, _, _, _. split; [reflexivity|].
  cbn [now cancelled response poller caller world].
  repeat split; try reflexivity; [apply Hfail|lia].
Qed.

End SyncProperties.

(** * Further properties *)

(** *** The put envelope *)

(** When every record of the batch marshals, buildTrxPutEdn returns a nil
    error and the envelope that holds one put operation per record, in
    the order of the batch and with nothing between two operations. *)
Theorem buildTrxPutEdn_envelope (trxs : list (TxEdnStruct E)) (edns : list string) :
  Forall2 (fun tx txEdn => edn_Marshal E tx = Ok txEdn) trxs edns ->
  buildTrxPutEdn trxs
  = ("{:tx-ops ["
     +:+ strings_Join (map (fun txEdn => "[:xtdb.api/put " +:+ txEdn +:+ "]") edns) ""
     +:+ "]}", None).
Proof.
  intros H. unfold buildTrxPutEdn.
  change (map (fun txEdn => "[:xtdb.api/put " +:+ txEdn +:+ "]") edns)
    with ([] ++ map (fun txEdn => "[:xtdb.api/put " +:+ txEdn +:+ "]") edns).
  generalize (@nil string).
  induction H as [|tx txEdn trxs edns Htx _ IH]; intros trxVector;
    cbn [buildTrxPutEdn_loop map].
  - rewrite app_nil_r. reflexivity.
  - rewrite Htx, IH, <- app_assoc. reflexivity.
Qed.

(** buildTrxPutEdn returns a nil error exactly when every record of the
    batch marshals; the empty batch is among them. *)
Theorem buildTrxPutEdn_ok_iff (trxs : list (TxEdnStruct E)) :
  snd (buildTrxPutEdn trxs) = None
  <-> Forall (fun tx => exists txEdn, edn_Marshal E tx = Ok txEdn) trxs.
Proof.
  unfold buildTrxPutEdn. generalize (@nil string).
  induction trxs as [|tx rest IH]; intros vec; cbn [buildTrxPutEdn_loop].
  - split; [constructor|reflexivity].
  - destruct (edn_Marshal E tx) as [txEdn|err] eqn:Htx.
    + rewrite IH. split.
      * intros H. constructor; [exists txEdn; exact Htx|exact H].
      * intros H. inversion H; assumption.
    + split; [discriminate|].
      intros H. inversion H as [|? ? [txEdn Hok] _]. congruence.
Qed.

(** *** Entity projection *)

Lemma isKey_spec (k : string) : isKey k = true <-> k <> "" /\ k <> "-".
Proof.
  unfold isKey. rewrite andb_true_iff, !negb_true_iff, !String.eqb_neq. reflexivity.
Qed.

Lemma EntityToMap_loop_lookup {V : Type} (fields : list (StructField V)) :
  forall (payload m : gmap string V) (k : string),
    EntityToMap_loop fields payload = Done m ->
    m !! k = match (if isKey k then lastTagged k fields else None) with
             | Some v => Some v
             | None => payload !! k
             end.
Proof.
  induction fields as [|f rest IH]; intros payload m k Hrun; cbn in Hrun.
  - injection Hrun as <-. destruct (isKey k); reflexivity.
  - fold (isKey (ednTag f)) in Hrun.
    destruct (isKey (ednTag f)) eqn:Hf.
    + destruct (exported f); [|discriminate].
      rewrite (IH _ _ k Hrun). cbn [lastTagged].
      destruct (isKey k) eqn:Hk.
      * destruct (lastTagged k rest); [reflexivity|].
        rewrite lookup_insert. destruct (String.eqb_spec (ednTag f) k) as [->|Hne].
        -- rewrite decide_True by reflexivity. reflexivity.
        -- rewrite decide_False by assumption. reflexivity.
      * rewrite lookup_insert_ne; [reflexivity|]. intros Heq. rewrite Heq in Hf. congruence.
    + rewrite (IH _ _ k Hrun). cbn [lastTagged].
      destruct (isKey k) eqn:Hk; [|reflexivity].
      destruct (lastTagged k rest); [reflexivity|].
      destruct (String.eqb_spec (ednTag f) k) as [Heq|Hne]; [|reflexivity].
      rewrite Heq in Hf. congruence.
Qed.

(** When EntityToMap returns, a key other than the empty string and the
    hyphen holds the value of the last field tagged with it, and is
    absent when no field carries that tag; the empty string and the
    hyphen are never keys. *)
Theorem EntityToMap_lookup {V : Type} (fields : list (StructField V))
    (m : gmap string V) :
  EntityToMap (StructPointer fields) = Done m ->
  forall k : string,
    m !! k = if isKey k then lastTagged k fields else None.
Proof.
  intros Hrun k. rewrite (EntityToMap_loop_lookup fields ∅ m k Hrun).
  destruct (if isKey k then lastTagged k fields else None); [reflexivity|].
  apply lookup_empty.
Qed.

Lemma EntityToMap_loop_panics {V : Type} (fields : list (StructField V)) :
  forall payload : gmap string V,
    (exists msg, EntityToMap_loop fields payload = Panicked msg)
    <-> exists f, In f fields /\ exported f = false /\ tagged f.
Proof.
  unfold tagged.
  induction fields as [|f rest IH]; intros payload; cbn [EntityToMap_loop].
  - split; [intros [msg H]; discriminate|intros (f & [] & _)].
  - fold (isKey (ednTag f)). destruct (isKey (ednTag f)) eqn:Hf.
    + destruct (exported f) eqn:Hex.
      * rewrite IH. split.
        -- intros (g & Hin & Hg). exists g. split; [right; exact Hin|exact Hg].
        -- intros (g & [<-|Hin] & Hg & Htag); [congruence|].
           exists g. auto.
      * split; [|intros _; eexists; reflexivity].
        intros _. exists f. split; [left; reflexivity|].
        split; [exact Hex|]. apply isKey_spec. exact Hf.
    + rewrite IH. split.
      * intros (g & Hin & Hg). exists g. split; [right; exact Hin|exact Hg].
      * intros (g & [<-|Hin] & Hg & Htag).
        -- apply isKey_spec in Htag. congruence.
        -- exists g. auto.
Qed.

(** EntityToMap panics exactly when it is handed something that is not a
    pointer to a struct, or a struct with an unexported field whose tag
    names a key. *)
Theorem EntityToMap_panics_iff {V : Type} (obj : Object V) :
  (exists msg, EntityToMap obj = Panicked msg)
  <-> obj = NotAStructPointer
      \/ exists fields f,
           obj = StructPointer fields
           /\ In f fields /\ exported f = false /\ tagged f.
Proof.
  destruct obj as [fields|]; cbn [EntityToMap].
  - rewrite EntityToMap_loop_panics. split.
    + intros (f & Hf). right. exists fields, f. split; [reflexivity|exact Hf].
    + intros [Hno|(fields' & f & [= <-] & Hf)]; [discriminate|].
      exists f. exact Hf.
  - split; [intros _; left; reflexivity|intros _; eexists; reflexivity].
Qed.

(** Fields without a tag, and fields tagged with a hyphen, do not count:
    EntityToMap gives the same result on the struct without them,
    exported or not. *)
Theorem EntityToMap_ignores_untagged {V : Type} (fields : list (StructField V)) :
  EntityToMap (StructPointer fields)
  = EntityToMap (StructPointer (List.filter (fun f => isKey (ednTag f)) fields)).
Proof.
  cbn [EntityToMap]. generalize (∅ : gmap string V).
  induction fields as [|f rest IH]; intros payload; cbn [EntityToMap_loop List.filter].
  - reflexivity.
  - fold (isKey (ednTag f)). destruct (isKey (ednTag f)) eqn:Hf.
    + cbn [EntityToMap_loop]. fold (isKey (ednTag f)). rewrite Hf.
      destruct (exported f); [apply IH|reflexivity].
    + apply IH.
Qed.

(** *** Submissions that are not accepted *)

(** From the first request issued, the answer it got. *)
Ltac same_request Hsent Hrt Hrt0 :=
  rewrite <- ?app_assoc in Hsent; apply app_cons_inv in Hsent;
  rewrite Hsent in Hrt0; rewrite Hrt in Hrt0.

(** Closes the branches of a submit that ran into the 202 case. *)
Ltac accepted_absurd Hrt Hrt0 Hst Hne :=
  let Hsent := fresh "Hsent" in
  intros Hsent; same_request Hsent Hrt Hrt0;
  first [ discriminate
        | injection Hrt0 as <-; apply Z.eqb_eq in Hst; contradiction ].

(** A submit answered with a status other than 202 returns an error, has
    issued that one request only, and has not waited for any
    transaction.  SubmitPutTx and SubmitEvictTx name the status in the
    error and log it with the body; PersistEntities returns "not 202"
    and logs nothing. *)
Theorem submit_rejected (s : Storage) (w : World) (req : Request)
    (resp : Response) :
  transport E (sent w) req = Responded resp ->
  StatusCode resp <> 202 ->
  (forall trxs rest,
     sent (snd (SubmitPutTx s trxs w)) = sent w ++ req :: rest ->
     SubmitPutTx s trxs w
     = (Done (None, Some ("received unknown status code="
                          +:+ fmt_int (StatusCode resp))),
        {| sent := sent w ++ [req];
           logged := logged w ++
             [(LPrint, "unknown status code=" +:+ fmt_int (StatusCode resp)
                       +:+ ", body=" +:+ content (RespBody resp))] |}))
  /\ (forall xtIDs rest,
     sent (snd (SubmitEvictTx s xtIDs w)) = sent w ++ req :: rest ->
     SubmitEvictTx s xtIDs w
     = (Done (None, Some ("received unknown status code="
                          +:+ fmt_int (StatusCode resp))),
        {| sent := sent w ++ [req];
           logged := logged w ++
             [(LInfo, "unknown status code=" +:+ fmt_int (StatusCode resp)
                      +:+ ", body=" +:+ content (RespBody resp))] |}))
  /\ (forall payloads rest,
     sent (snd (PersistEntities s payloads w)) = sent w ++ req :: rest ->
     PersistEntities s payloads w
     = (Done (0, Some "not 202"),
        {| sent := sent w ++ [req]; logged := logged w |})).
Proof.
  intros Hrt Hne. split; [|split].
  - intros trxs rest. unfold SubmitPutTx, http_NewRequest.
    destruct (buildTrxPutEdn trxs) as [body [berr|]]; mrun; [not_issued|].
    destruct (url_Parse E _) as [perr|]; mrun; [not_issued|].
    set (req0 := Header_Set _ _ _).
    destruct (transport E (sent w) req0) as [err|r] eqn:Hrt0; mrun; [not_issued|].
    destruct (StatusCode r =? StatusAccepted) eqn:Hst.
    + destruct (edn_DecodeTx E (RespBody r) zeroTxResponse) as [tx derr].
      destruct derr as [derr|]; mrun; await_returns new extra Hrun;
        accepted_absurd Hrt Hrt0 Hst Hne.
    + unfold io_ReadAll. mrun. intros Hsent. same_request Hsent Hrt Hrt0.
      injection Hrt0 as <-. rewrite Hsent. reflexivity.
  - intros xtIDs rest. unfold SubmitEvictTx, http_NewRequest.
    destruct (length xtIDs =? 0)%nat; mrun; [not_issued|].
    destruct (buildTrxEvictEdn xtIDs) as [body [berr|]]; mrun; [not_issued|].
    destruct (url_Parse E _) as [perr|]; mrun; [not_issued|].
    set (req0 := Header_Set _ _ _).
    destruct (transport E (sent w) req0) as [err|r] eqn:Hrt0; mrun; [not_issued|].
    destruct (StatusCode r =? StatusAccepted) eqn:Hst.
    + destruct (edn_DecodeTx E (RespBody r) zeroTxResponse) as [tx derr].
      destruct derr as [derr|]; mrun; await_returns new extra Hrun;
        accepted_absurd Hrt Hrt0 Hst Hne.
    + unfold io_ReadAll. mrun. intros Hsent. same_request Hsent Hrt Hrt0.
      injection Hrt0 as <-. rewrite Hsent. reflexivity.
  - intros payloads rest. unfold PersistEntities, http_NewRequest.
    destruct (buildPersistPayload payloads) as [body [berr|]]; mrun; [not_issued|].
    destruct (url_Parse E _) as [perr|]; mrun; [not_issued|].
    set (req0 := Header_Set _ _ _).
    destruct (transport E (sent w) req0) as [err|r] eqn:Hrt0; mrun; [not_issued|].
    destruct (StatusCode r =? StatusAccepted) eqn:Hst.
    + destruct (json_DecodeTx E (RespBody r) zeroTxResponse) as [tx derr].
      destruct derr as [derr|]; mrun; await_returns new extra Hrun;
        accepted_absurd Hrt Hrt0 Hst Hne.
    + mrun. intros Hsent. same_request Hsent Hrt Hrt0.
      injection Hrt0 as <-. rewrite Hsent. reflexivity.
Qed.

(** A submit whose request fails on the wire returns the error of the
    transport as it is, after that one request and with nothing logged. *)
Theorem submit_transport_failure (s : Storage) (w : World) (req : Request)
    (err : error) :
  transport E (sent w) req = Failed err ->
  (forall trxs rest,
     sent (snd (SubmitPutTx s trxs w)) = sent w ++ req :: rest ->
     SubmitPutTx s trxs w
     = (Done (None, Some err), {| sent := sent w ++ [req]; logged := logged w |}))
  /\ (forall xtIDs rest,
     sent (snd (SubmitEvictTx s xtIDs w)) = sent w ++ req :: rest ->
     SubmitEvictTx s xtIDs w
     = (Done (None, Some err), {| sent := sent w ++ [req]; logged := logged w |}))
  /\ (forall payloads rest,
     sent (snd (PersistEntities s payloads w)) = sent w ++ req :: rest ->
     PersistEntities s payloads w
     = (Done (0, Some err), {| sent := sent w ++ [req]; logged := logged w |})).
Proof.
  intros Hrt. split; [|split].
  - intros trxs rest. unfold SubmitPutTx, http_NewRequest.
    destruct (buildTrxPutEdn trxs) as [body [berr|]]; mrun; [not_issued|].
    destruct (url_Parse E _) as [perr|]; mrun; [not_issued|].
    set (req0 := Header_Set _ _ _).
    destruct (transport E (sent w) req0) as [err0|r] eqn:Hrt0; mrun.
    { intros Hsent. same_request Hsent Hrt Hrt0. injection Hrt0 as <-.
      rewrite Hsent. reflexivity. }
    destruct (StatusCode r =? StatusAccepted) eqn:Hst.
    + destruct (edn_DecodeTx E (RespBody r) zeroTxResponse) as [tx derr].
      destruct derr as [derr|]; mrun; await_returns new extra Hrun;
        intros Hsent; same_request Hsent Hrt Hrt0; discriminate.
    + unfold io_ReadAll. mrun. intros Hsent. same_request Hsent Hrt Hrt0.
      discriminate.
  - intros xtIDs rest. unfold SubmitEvictTx, http_NewRequest.
    destruct (length xtIDs =? 0)%nat; mrun; [not_issued|].
    destruct (buildTrxEvictEdn xtIDs) as [body [berr|]]; mrun; [not_issued|].
    destruct (url_Parse E _) as [perr|]; mrun; [not_issued|].
    set (req0 := Header_Set _ _ _).
    destruct (transport E (sent w) req0) as [err0|r] eqn:Hrt0; mrun.
    { intros Hsent. same_request Hsent Hrt Hrt0. injection Hrt0 as <-.
      rewrite Hsent. reflexivity. }
    destruct (StatusCode r =? StatusAccepted) eqn:Hst.
    + destruct (edn_DecodeTx E (RespBody r) zeroTxResponse) as [tx derr].
      destruct derr as [derr|]; mrun; await_returns new extra Hrun;
        intros Hsent; same_request Hsent Hrt Hrt0; discriminate.
    + unfold io_ReadAll. mrun. intros Hsent. same_request Hsent Hrt Hrt0.
      discriminate.
  - intros payloads rest. unfold PersistEntities, http_NewRequest.
    destruct (buildPersistPayload payloads) as [body [berr|]]; mrun; [not_issued|].
    destruct (url_Parse E _) as [perr|]; mrun; [not_issued|].
    set (req0 := Header_Set _ _ _).
    destruct (transport E (sent w) req0) as [err0|r] eqn:Hrt0; mrun.
    { intros Hsent. same_request Hsent Hrt Hrt0. injection Hrt0 as <-.
      rewrite Hsent. reflexivity. }
    destruct (StatusCode r =? StatusAccepted) eqn:Hst.
    + destruct (json_DecodeTx E (RespBody r) zeroTxResponse) as [tx derr].
      destruct derr as [derr|]; mrun; await_returns new extra Hrun;
        intros Hsent; same_request Hsent Hrt Hrt0; discriminate.
    + mrun. intros Hsent. same_request Hsent Hrt Hrt0. discriminate.
Qed.

(** *** Waiting for a transaction *)

Lemma String_app_assoc (a b c : string) : (a +:+ b) +:+ c = a +:+ b +:+ c.
Proof.
  induction a as [|x a IH]; [reflexivity|]. rewrite !String_app_cons, IH. reflexivity.
Qed.

(** AwaitTx with a base address that parses issues one GET of the await
    endpoint, with the transaction id and the fixed timeout in the URL,
    and logs nothing.  It returns nil exactly when the answer has status
    200; otherwise the error names the transaction id, and the status
    when there is one. *)
Theorem AwaitTx_result (s : Storage) (txID : Z) (w : World) :
  url_Parse E (URL (await_request s txID)) = None ->
  snd (AwaitTx s txID w)
  = {| sent := sent w ++ [await_request s txID]; logged := logged w |}
  /\ (fst (AwaitTx s txID w) = Done None
      <-> exists resp,
            transport E (sent w) (await_request s txID) = Responded resp
            /\ StatusCode resp = 200)
  /\ (forall err, fst (AwaitTx s txID w) = Done (Some err) ->
        Contains (fmt_int txID) err
        /\ forall resp,
             transport E (sent w) (await_request s txID) = Responded resp ->
             Contains (fmt_int (StatusCode resp)) err).
Proof.
  intros Hurl. unfold AwaitTx, http_Get, http_NewRequest.
  cbn [await_request URL] in Hurl. rewrite Hurl. mrun.
  fold (await_request s txID).
  destruct (transport E (sent w) (await_request s txID)) as [terr|resp]; mrun.
  - split; [reflexivity|]. split.
    + split; [discriminate|]. intros (resp & Hresp & _). discriminate.
    + intros err [= <-]. split; [apply Contains_infix|]. intros resp Hresp. discriminate.
  - destruct (StatusCode resp =? 200) eqn:Hst; cbn [negb]; unfold io_ReadAll; mrun.
    + split; [reflexivity|]. split.
      * split; [|reflexivity]. intros _. exists resp.
        split; [reflexivity|apply Z.eqb_eq; exact Hst].
      * intros err Herr. discriminate.
    + split; [reflexivity|]. split.
      * split; [discriminate|]. intros (resp' & [= <-] & H200).
        apply Z.eqb_neq in Hst. contradiction.
      * intros err [= <-]. split; [apply Contains_infix|].
        intros resp' [= <-].
        exists ("failed awaiting transaction " +:+ fmt_int txID +:+ ", code="),
               (", response=" +:+ content (RespBody resp)).
        rewrite !String_app_assoc. reflexivity.
Qed.

Lemma AwaitTx_world (s : Storage) (txID : Z) (w : World) :
  url_Parse E (URL (await_request s txID)) = None ->
  snd (AwaitTx s txID w)
  = {| sent := sent w ++ [await_request s txID]; logged := logged w |}.
Proof.
  intros Hurl. unfold AwaitTx, http_Get, http_NewRequest.
  cbn [await_request URL] in Hurl. rewrite Hurl. mrun.
  destruct (transport E (sent w) _) as [terr|resp]; mrun; [reflexivity|].
  destruct (negb (StatusCode resp =? 200)); unfold io_ReadAll; reflexivity.
Qed.

Lemma awaitBestEffort_skips (s : Storage) (tx : TxResponse) (w : World) :
  TxID tx <= 0 -> awaitBestEffort s tx w = (Done tt, w).
Proof.
  intros Hle. unfold awaitBestEffort.
  destruct (0 <? TxID tx) eqn:Hpos; [apply Z.ltb_lt in Hpos; lia|reflexivity].
Qed.

Lemma awaitBestEffort_sends (s : Storage) (tx : TxResponse) (w : World) :
  0 < TxID tx ->
  url_Parse E (URL (await_request s (TxID tx))) = None ->
  sent (snd (awaitBestEffort s tx w)) = sent w ++ [await_request s (TxID tx)].
Proof.
  intros Hpos Hurl. unfold awaitBestEffort.
  apply Z.ltb_lt in Hpos. rewrite Hpos. unfold bind.
  pose proof (AwaitTx_world s (TxID tx) w Hurl) as Hw.
  destruct (AwaitTx s (TxID tx) w) as [[[aerr|]|msg] w1]; cbn [snd] in Hw; subst w1;
    reflexivity.
Qed.

Lemma awaitBestEffort_adds (s : Storage) (tx : TxResponse) (w : World)
    (new : list Request) (extra : list (Level * string)) :
  awaitBestEffort s tx w
  = (Done tt, {| sent := sent w ++ new; logged := logged w ++ extra |}) ->
  (TxID tx <= 0 -> new = [])
  /\ (0 < TxID tx ->
      url_Parse E (URL (await_request s (TxID tx))) = None ->
      new = [await_request s (TxID tx)]).
Proof.
  intros Hrun. split.
  - intros Hle. rewrite (awaitBestEffort_skips s tx w Hle) in Hrun.
    injection Hrun as Hw. apply (f_equal sent) in Hw. cbn in Hw.
    rewrite <- (app_nil_r (sent w)) in Hw at 1. apply app_inv_head in Hw. congruence.
  - intros Hpos Hurl. pose proof (awaitBestEffort_sends s tx w Hpos Hurl) as Hs.
    rewrite Hrun in Hs. cbn in Hs. apply app_inv_head in Hs. exact Hs.
Qed.

(** The 202 branch of a submit: what follows the submit request is what
    the best-effort wait added. *)
Ltac waits_branch adds Hrt Hrt0 Hdec Hrun :=
  let Hsent := fresh "Hsent" in
  let Hreq := fresh "Hreq" in
  let Hrest := fresh "Hrest" in
  intros Hsent; rewrite <- app_assoc in Hsent;
  apply app_inv_head in Hsent; cbn [app] in Hsent;
  injection Hsent as Hreq Hrest;
  rewrite Hreq, Hrt in Hrt0; injection Hrt0 as <-;
  rewrite Hdec; cbn [fst]; rewrite <- Hrest;
  exact (adds _ _ _ _ _ Hrun).

(** An accepted submit waits only for a positive transaction id: with a
    receipt whose id is zero or negative the submit request is the only
    one issued; with a positive id, and a base address that parses, it is
    followed by exactly one GET of the await endpoint for that id. *)
Theorem submit_waits_for_positive_ids (s : Storage) (w : World) (req : Request)
    (resp : Response) :
  transport E (sent w) req = Responded resp ->
  StatusCode resp = 202 ->
  (forall trxs rest,
     sent (snd (SubmitPutTx s trxs w)) = sent w ++ req :: rest ->
     (TxID (fst (edn_DecodeTx E (RespBody resp) zeroTxResponse)) <= 0 -> rest = [])
     /\ (0 < TxID (fst (edn_DecodeTx E (RespBody resp) zeroTxResponse)) ->
         url_Parse E (URL (await_request s
            (TxID (fst (edn_DecodeTx E (RespBody resp) zeroTxResponse))))) = None ->
         rest = [await_request s
                   (TxID (fst (edn_DecodeTx E (RespBody resp) zeroTxResponse)))]))
  /\ (forall xtIDs rest,
     sent (snd (SubmitEvictTx s xtIDs w)) = sent w ++ req :: rest ->
     (TxID (fst (edn_DecodeTx E (RespBody resp) zeroTxResponse)) <= 0 -> rest = [])
     /\ (0 < TxID (fst (edn_DecodeTx E (RespBody resp) zeroTxResponse)) ->
         url_Parse E (URL (await_request s
            (TxID (fst (edn_DecodeTx E (RespBody resp) zeroTxResponse))))) = None ->
         rest = [await_request s
                   (TxID (fst (edn_DecodeTx E (RespBody resp) zeroTxResponse)))]))
  /\ (forall payloads rest,
     sent (snd (PersistEntities s payloads w)) = sent w ++ req :: rest ->
     (TxID (fst (json_DecodeTx E (RespBody resp) zeroTxResponse)) <= 0 -> rest = [])
     /\ (0 < TxID (fst (json_DecodeTx E (RespBody resp) zeroTxResponse)) ->
         url_Parse E (URL (await_request s
            (TxID (fst (json_DecodeTx E (RespBody resp) zeroTxResponse))))) = None ->
         rest = [await_request s
                   (TxID (fst (json_DecodeTx E (RespBody resp) zeroTxResponse)))])).
Proof.
  intros Hrt H202.
  assert (Hne : forall r, StatusCode r = StatusCode resp ->
                  (StatusCode r =? StatusAccepted) = false -> False).
  { intros r Hr Hst. rewrite Hr, H202 in Hst. discriminate. }
  split; [|split].
  - intros trxs rest. unfold SubmitPutTx, http_NewRequest.
    destruct (buildTrxPutEdn trxs) as [body [berr|]]; mrun; [not_issued|].
    destruct (url_Parse E _) as [perr|]; mrun; [not_issued|].
    set (req0 := Header_Set _ _ _).
    destruct (transport E (sent w) req0) as [err|r] eqn:Hrt0; mrun; [not_issued|].
    destruct (StatusCode r =? StatusAccepted) eqn:Hst.
    + destruct (edn_DecodeTx E (RespBody r) zeroTxResponse) as [tx derr] eqn:Hdec.
      destruct derr as [derr|]; mrun; await_returns new extra Hrun;
        waits_branch awaitBestEffort_adds Hrt Hrt0 Hdec Hrun.
    + unfold io_ReadAll. mrun. intros Hsent. same_request Hsent Hrt Hrt0.
      injection Hrt0 as <-. exfalso. exact (Hne resp eq_refl Hst).
  - intros xtIDs rest. unfold SubmitEvictTx, http_NewRequest.
    destruct (length xtIDs =? 0)%nat; mrun; [not_issued|].
    destruct (buildTrxEvictEdn xtIDs) as [body [berr|]]; mrun; [not_issued|].
    destruct (url_Parse E _) as [perr|]; mrun; [not_issued|].
    set (req0 := Header_Set _ _ _).
    destruct (transport E (sent w) req0) as [err|r] eqn:Hrt0; mrun; [not_issued|].
    destruct (StatusCode r =? StatusAccepted) eqn:Hst.
    + destruct (edn_DecodeTx E (RespBody r) zeroTxResponse) as [tx derr] eqn:Hdec.
      destruct derr as [derr|]; mrun; await_returns new extra Hrun;
        waits_branch awaitBestEffort_adds Hrt Hrt0 Hdec Hrun.
    + unfold io_ReadAll. mrun. intros Hsent. same_request Hsent Hrt Hrt0.
      injection Hrt0 as <-. exfalso. exact (Hne resp eq_refl Hst).
  - intros payloads rest. unfold PersistEntities, http_NewRequest.
    destruct (buildPersistPayload payloads) as [body [berr|]]; mrun; [not_issued|].
    destruct (url_Parse E _) as [perr|]; mrun; [not_issued|].
    set (req0 := Header_Set _ _ _).
    destruct (transport E (sent w) req0) as [err|r] eqn:Hrt0; mrun; [not_issued|].
    destruct (StatusCode r =? StatusAccepted) eqn:Hst.
    + destruct (json_DecodeTx E (RespBody r) zeroTxResponse) as [tx derr] eqn:Hdec.
      destruct derr as [derr|]; mrun; await_returns new extra Hrun;
        waits_branch awaitBestEffort_adds Hrt Hrt0 Hdec Hrun.
    + mrun. intros Hsent. same_request Hsent Hrt Hrt0.
      injection Hrt0 as <-. exfalso. exact (Hne resp eq_refl Hst).
Qed.

(** *** Entities the store has *)

(** Closes a case in which no request went out although one is assumed. *)
Ltac nothing_sent :=
  let H := fresh "H" in
  intros H; exfalso; exact (app_cons_neq _ _ _ H).

(** On status 200 GetEntity returns whatever reading the body gave, the
    bytes read and the read error together; GetEntityHistory returns the
    bytes only when the read succeeded, and the read error alone
    otherwise. *)
Theorem entity_found (s : Storage) (w : World) (req : Request) (resp : Response) :
  transport E (sent w) req = Responded resp ->
  StatusCode resp = 200 ->
  (forall xtId,
     sent (snd (GetEntity s xtId w)) = sent w ++ [req] ->
     fst (GetEntity s xtId w)
     = Done (Some (content (RespBody resp)), readErr (RespBody resp)))
  /\ (forall eid sortOrder withDocs,
     sent (snd (GetEntityHistory s eid sortOrder withDocs w)) = sent w ++ [req] ->
     fst (GetEntityHistory s eid sortOrder withDocs w)
     = Done match readErr (RespBody resp) with
            | Some err => (None, Some err)
            | None => (Some (content (RespBody resp)), None)
            end).
Proof.
  intros Hrt H200. split.
  - intros xtId. unfold GetEntity, http_NewRequest.
    destruct (url_Parse E _) as [perr|]; mrun; [nothing_sent|].
    set (req0 := set_RawQuery _ _).
    destruct (transport E (sent w) req0) as [err|r] eqn:Hrt0; mrun.
    { intros Hsent. same_request Hsent Hrt Hrt0. discriminate. }
    unfold io_ReadAll.
    destruct (StatusCode r =? StatusOK) eqn:H1;
      [|destruct (StatusCode r =? StatusNotFound) eqn:H2]; mrun;
      intros Hsent; same_request Hsent Hrt Hrt0; injection Hrt0 as <-;
      [reflexivity| |]; unfold StatusOK in H1; rewrite H200 in H1; discriminate.
  - intros eid sortOrder withDocs. unfold GetEntityHistory, http_NewRequest.
    destruct (negb (String.eqb sortOrder "asc") && negb (String.eqb sortOrder "desc"));
      mrun; [nothing_sent|].
    destruct (url_Parse E _) as [perr|]; mrun; [nothing_sent|].
    set (req0 := set_RawQuery _ _).
    destruct (transport E (sent w) req0) as [err|r] eqn:Hrt0; mrun.
    { intros Hsent. same_request Hsent Hrt Hrt0. discriminate. }
    unfold io_ReadAll.
    destruct (StatusCode r =? StatusOK) eqn:H1;
      [destruct (readErr (RespBody r)) eqn:Hread
      |destruct (StatusCode r =? StatusNotFound) eqn:H2]; mrun;
      intros Hsent; same_request Hsent Hrt Hrt0; injection Hrt0 as <-;
      try (rewrite Hread; reflexivity);
      unfold StatusOK in H1; rewrite H200 in H1; discriminate.
Qed.

(** GetEntityHistory never returns bytes together with an error, whatever
    the store answers. *)
Theorem GetEntityHistory_bytes_or_error (s : Storage) (eid sortOrder : string)
    (withDocs : bool) (w : World) :
  exists b err,
    fst (GetEntityHistory s eid sortOrder withDocs w) = Done (b, err)
    /\ (b = None \/ err = None).
Proof.
  unfold GetEntityHistory, http_NewRequest.
  destruct (negb (String.eqb sortOrder "asc") && negb (String.eqb sortOrder "desc"));
    mrun; [eexists _, _; split; [reflexivity|left; reflexivity]|].
  destruct (url_Parse E _) as [perr|]; mrun;
    [eexists _, _; split; [reflexivity|left; reflexivity]|].
  destruct (transport E (sent w) _) as [err|r]; mrun;
    [eexists _, _; split; [reflexivity|left; reflexivity]|].
  unfold io_ReadAll.
  destruct (StatusCode r =? StatusOK);
    [destruct (readErr (RespBody r))|destruct (StatusCode r =? StatusNotFound)];
    mrun; eexists _, _; (split; [reflexivity|]); auto.
Qed.

(** *** Queries *)

(** queryRequest does not look at the status of the answer: whatever the
    status, it returns the body when reading it succeeded and the read
    error otherwise. *)
Theorem queryRequest_ignores_status (s : Storage) (ednQuery contentType : string)
    (w : World) (req : Request) (resp : Response) :
  sent (snd (queryRequest s ednQuery contentType w)) = sent w ++ [req] ->
  transport E (sent w) req = Responded resp ->
  queryRequest s ednQuery contentType w
  = (Done match readErr (RespBody resp) with
          | Some err => (None, Some err)
          | None => (Some (content (RespBody resp)), None)
          end,
     {| sent := sent w ++ [req]; logged := logged w |}).
Proof.
  unfold queryRequest, http_NewRequest.
  destruct (url_Parse E _) as [perr|]; mrun; [nothing_sent|].
  set (req0 := Header_Set _ _ _).
  destruct (transport E (sent w) req0) as [err|r] eqn:Hrt0; mrun.
  { intros Hsent Hrt. same_request Hsent Hrt Hrt0. discriminate. }
  unfold io_ReadAll.
  destruct (readErr (RespBody r)) eqn:Hread; mrun;
    intros Hsent Hrt; same_request Hsent Hrt Hrt0; injection Hrt0 as <-;
    rewrite Hread, Hsent; reflexivity.
Qed.

Lemma firstColumns_heads {A : Type} (p : list (list A)) :
  Forall (fun row => row <> []) p ->
  forall r,
    firstColumns p r = Done (r ++ omap (fun row => row !! 0%nat) p)
    /\ length (omap (fun row : list A => row !! 0%nat) p) = length p.
Proof.
  induction 1 as [|row rest Hrow _ IH]; intros r.
  - rewrite app_nil_r. split; reflexivity.
  - destruct row as [|x row]; [contradiction|]. cbn.
    destruct (IH (r ++ [x])) as [Hrun Hlen].
    rewrite Hrun, <- app_assoc, Hlen. split; reflexivity.
Qed.

(** Rows need not have the same number of columns: as soon as no decoded
    row is empty, Query and QueryAsJson encode the sequence of the first
    columns, one per row and in the order of the rows. *)
Theorem Query_first_column_of_each_row (s : Storage) (ednQuery b : string)
    (w w' : World) :
  (forall p : list (list (EdnMap E)),
     queryRequest s ednQuery "application/edn" w = (Done (Some b, None), w') ->
     edn_UnmarshalRows E b = Ok p ->
     Forall (fun row => row <> []) p ->
     length (omap (fun row : list (EdnMap E) => row !! 0%nat) p) = length p
     /\ Query s ednQuery w
        = (Done match edn_MarshalMaps E (omap (fun row => row !! 0%nat) p) with
                | Ok response => (Some response, None)
                | Err err => (None, Some err)
                end, w'))
  /\ (forall p : list (list (Payload E)),
     queryRequest s ednQuery "application/json" w = (Done (Some b, None), w') ->
     json_UnmarshalRows E b = Ok p ->
     Forall (fun row => row <> []) p ->
     length (omap (fun row : list (Payload E) => row !! 0%nat) p) = length p
     /\ QueryAsJson s ednQuery w
        = (Done match json_Marshal E
                        (JArray (map JAny (omap (fun row => row !! 0%nat) p))) with
                | Ok response => (Some response, None)
                | Err err => (None, Some err)
                end, w')).
Proof.
  split; intros p Hreq Hdec Hrows;
    destruct (firstColumns_heads p Hrows []) as [Hrun Hlen]; (split; [exact Hlen|]).
  - unfold Query, bind. rewrite Hreq. cbv beta iota. cbn [default from_option id].
    rewrite Hdec, Hrun. cbn [app].
    destruct (edn_MarshalMaps E _); reflexivity.
  - unfold QueryAsJson, bind. rewrite Hreq. cbv beta iota. cbn [default from_option id].
    rewrite Hdec, Hrun. cbn [app].
    destruct (json_Marshal E _); reflexivity.
Qed.

Lemma rows_empty_or_not {A : Type} (p : list (list A)) :
  In [] p \/ Forall (fun row => row <> []) p.
Proof.
  induction p as [|row rest [IH|IH]].
  - right. constructor.
  - left. right. exact IH.
  - destruct row as [|x row]; [left; left; reflexivity|].
    right. constructor; [discriminate|exact IH].
Qed.

Lemma firstColumns_panics_iff {A : Type} (p : list (list A)) :
  (exists msg, firstColumns p [] = Panicked msg) <-> In [] p.
Proof.
  split; [|intros Hin; apply firstColumns_panics; exact Hin].
  intros [msg Hp]. destruct (rows_empty_or_not p) as [Hin|Hall]; [exact Hin|].
  destruct (firstColumns_total p Hall []) as (heads & Hrun & _). congruence.
Qed.

Lemma queryRequest_returns (s : Storage) (ednQuery contentType : string) (w : World) :
  exists res w', queryRequest s ednQuery contentType w = (Done res, w').
Proof.
  unfold queryRequest, http_NewRequest.
  destruct (url_Parse E _) as [perr|]; mrun; [eexists _, _; reflexivity|].
  destruct (transport E (sent w) _) as [err|r]; mrun; [eexists _, _; reflexivity|].
  destruct (io_ReadAll (RespBody r)) as [b [rerr|]]; eexists _, _; reflexivity.
Qed.

(** Query panics in one situation only: the request went through, the
    body decoded, and one of the decoded rows is empty.  Every failure
    of the request or of a codec comes back as an error. *)
Theorem Query_panics_iff (s : Storage) (ednQuery : string) (w : World) :
  ((exists msg w', Query s ednQuery w = (Panicked msg, w'))
   <-> exists b p,
         fst (queryRequest s ednQuery "application/edn" w) = Done (b, None)
         /\ edn_UnmarshalRows E (default "" b) = Ok p
         /\ In [] p)
  /\ ((exists msg w', QueryAsJson s ednQuery w = (Panicked msg, w'))
      <-> exists b p,
            fst (queryRequest s ednQuery "application/json" w) = Done (b, None)
            /\ json_UnmarshalRows E (default "" b) = Ok p
            /\ In [] p).
Proof.
  split.
  - unfold Query, bind.
    destruct (queryRequest_returns s ednQuery "application/edn" w)
      as ([b [err|]] & w1 & ->); mrun.
    { split; [intros (msg & w' & H); discriminate|].
      intros (b' & p & H & _). discriminate. }
    destruct (edn_UnmarshalRows E (default "" b)) as [p|derr] eqn:Hdec.
    + destruct (firstColumns p []) as [r|msg] eqn:Hrun.
      * split.
        -- intros (msg & w' & H). destruct (edn_MarshalMaps E r); discriminate.
        -- intros (b' & p' & [= <-] & Hdec' & Hin). rewrite Hdec in Hdec'.
           injection Hdec' as <-.
           apply firstColumns_panics_iff in Hin as [msg Hp]. congruence.
      * split; [|intros _; eexists _, _; reflexivity].
        intros _. exists b, p. split; [reflexivity|]. split; [exact Hdec|].
        apply firstColumns_panics_iff. exists msg. exact Hrun.
    + split; [intros (msg & w' & H); discriminate|].
      intros (b' & p & [= <-] & Hdec' & _). congruence.
  - unfold QueryAsJson, bind.
    destruct (queryRequest_returns s ednQuery "application/json" w)
      as ([b [err|]] & w1 & ->); mrun.
    { split; [intros (msg & w' & H); discriminate|].
      intros (b' & p & H & _). discriminate. }
    destruct (json_UnmarshalRows E (default "" b)) as [p|derr] eqn:Hdec.
    + destruct (firstColumns p []) as [r|msg] eqn:Hrun.
      * split.
        -- intros (msg & w' & H).
           destruct (json_Marshal E (JArray (map JAny r))); discriminate.
        -- intros (b' & p' & [= <-] & Hdec' & Hin). rewrite Hdec in Hdec'.
           injection Hdec' as <-.
           apply firstColumns_panics_iff in Hin as [msg Hp]. congruence.
      * split; [|intros _; eexists _, _; reflexivity].
        intros _. exists b, p. split; [reflexivity|]. split; [exact Hdec|].
        apply firstColumns_panics_iff. exists msg. exact Hrun.
    + split; [intros (msg & w' & H); discriminate|].
      intros (b' & p & [= <-] & Hdec' & _). congruence.
Qed.

(** *** No retries, no panics *)

Ltac appended :=
  first
    [ exists []; rewrite app_nil_r; reflexivity
    | eexists; reflexivity
    | eexists; rewrite <- app_assoc; reflexivity ].

Ltac appended_bound :=
  first
    [ exists []; rewrite app_nil_r; split; [reflexivity|cbn [length]; lia]
    | eexists; split; [reflexivity|cbn [length app]; lia]
    | eexists; split; [rewrite <- app_assoc; reflexivity|cbn [length app]; lia] ].

(** Closes a leaf of a run. *)
Ltac returned :=
  red; eexists _, _; split; [reflexivity|];
  cbn [sent logged]; split; [appended_bound|appended].

Lemma http_Get_run (url : string) (w : World) :
  returnsSending 1 (http_Get url w) w.
Proof.
  unfold http_Get, http_NewRequest.
  destruct (url_Parse E url) as [err|]; mrun; returned.
Qed.

Lemma AwaitTx_run (s : Storage) (txID : Z) (w : World) :
  returnsSending 1 (AwaitTx s txID w) w.
Proof.
  unfold AwaitTx, http_Get, http_NewRequest.
  destruct (url_Parse E _) as [err|]; mrun; [returned|].
  destruct (transport E (sent w) _) as [err|resp]; mrun; [returned|].
  destruct (negb (StatusCode resp =? 200)); unfold io_ReadAll; mrun; returned.
Qed.

Lemma awaitBestEffort_run (s : Storage) (tx : TxResponse) (w : World) :
  exists new extra,
    awaitBestEffort s tx w
    = (Done tt, {| sent := sent w ++ new; logged := logged w ++ extra |})
    /\ (length new <= 1)%nat.
Proof.
  unfold awaitBestEffort. destruct (0 <? TxID tx).
  - unfold bind.
    destruct (AwaitTx_run s (TxID tx) w)
      as (aerr & w1 & -> & (new & Hs & Hlen) & (extra & Hl)).
    destruct w1 as [snt lg]. cbn in Hs, Hl. subst snt lg.
    destruct aerr as [err|]; mrun.
    + exists new, (extra ++ [(LWarn, fmt_Sprintf0 E err)]).
      rewrite app_assoc. split; [reflexivity|exact Hlen].
    + exists new, extra. split; [reflexivity|exact Hlen].
  - exists [], []. rewrite !app_nil_r. destruct w. split; [reflexivity|cbn; lia].
Qed.

(** Runs a best-effort wait in head position, with the bound on what it
    sends. *)
Ltac await_runs run new extra Hlen :=
  match goal with
  | |- context [awaitBestEffort ?s ?tx ?w1] =>
      let Hrun := fresh "Hrun" in
      destruct (run s tx w1) as (new & extra & Hrun & Hlen);
      rewrite Hrun; mrun
  end.

Lemma SubmitPutTx_run (s : Storage) (trxs : list (TxEdnStruct E)) (w : World) :
  returnsSending 2 (SubmitPutTx s trxs w) w.
Proof.
  unfold SubmitPutTx, http_NewRequest.
  destruct (buildTrxPutEdn trxs) as [body [berr|]]; mrun; [returned|].
  destruct (url_Parse E _) as [perr|]; mrun; [returned|].
  destruct (transport E (sent w) _) as [err|r]; mrun; [returned|].
  destruct (StatusCode r =? StatusAccepted).
  - destruct (edn_DecodeTx E (RespBody r) zeroTxResponse) as [tx derr].
    destruct derr as [derr|]; mrun; await_runs awaitBestEffort_run new extra Hlen; returned.
  - unfold io_ReadAll. mrun. returned.
Qed.

Lemma SubmitEvictTx_run (s : Storage) (xtIDs : list string) (w : World) :
  returnsSending 2 (SubmitEvictTx s xtIDs w) w.
Proof.
  unfold SubmitEvictTx, http_NewRequest.
  destruct (length xtIDs =? 0)%nat; mrun; [returned|].
  destruct (buildTrxEvictEdn xtIDs) as [body [berr|]]; mrun; [returned|].
  destruct (url_Parse E _) as [perr|]; mrun; [returned|].
  destruct (transport E (sent w) _) as [err|r]; mrun; [returned|].
  destruct (StatusCode r =? StatusAccepted).
  - destruct (edn_DecodeTx E (RespBody r) zeroTxResponse) as [tx derr].
    destruct derr as [derr|]; mrun; await_runs awaitBestEffort_run new extra Hlen; returned.
  - unfold io_ReadAll. mrun. returned.
Qed.

Lemma PersistEntities_run (s : Storage) (payloads : list (Payload E)) (w : World) :
  returnsSending 2 (PersistEntities s payloads w) w.
Proof.
  unfold PersistEntities, http_NewRequest.
  destruct (buildPersistPayload payloads) as [body [berr|]]; mrun; [returned|].
  destruct (url_Parse E _) as [perr|]; mrun; [returned|].
  destruct (transport E (sent w) _) as [err|r]; mrun; [returned|].
  destruct (StatusCode r =? StatusAccepted).
  - destruct (json_DecodeTx E (RespBody r) zeroTxResponse) as [tx derr].
    destruct derr as [derr|]; mrun; await_runs awaitBestEffort_run new extra Hlen; returned.
  - mrun. returned.
Qed.

Lemma GetEntity_run (s : Storage) (xtId : string) (w : World) :
  returnsSending 1 (GetEntity s xtId w) w.
Proof.
  unfold GetEntity, http_NewRequest.
  destruct (url_Parse E _) as [perr|]; mrun; [returned|].
  destruct (transport E (sent w) _) as [err|r]; mrun; [returned|].
  unfold io_ReadAll.
  destruct (StatusCode r =? StatusOK); [|destruct (StatusCode r =? StatusNotFound)];
    mrun; returned.
Qed.

Lemma GetEntityHistory_run (s : Storage) (eid sortOrder : string) (withDocs : bool)
    (w : World) :
  returnsSending 1 (GetEntityHistory s eid sortOrder withDocs w) w.
Proof.
  unfold GetEntityHistory, http_NewRequest.
  destruct (negb (String.eqb sortOrder "asc") && negb (String.eqb sortOrder "desc"));
    mrun; [returned|].
  destruct (url_Parse E _) as [perr|]; mrun; [returned|].
  destruct (transport E (sent w) _) as [err|r]; mrun; [returned|].
  unfold io_ReadAll.
  destruct (StatusCode r =? StatusOK);
    [destruct (readErr (RespBody r))|destruct (StatusCode r =? StatusNotFound)];
    mrun; returned.
Qed.

Lemma queryRequest_run (s : Storage) (ednQuery contentType : string) (w : World) :
  returnsSending 1 (queryRequest s ednQuery contentType w) w.
Proof.
  unfold queryRequest, http_NewRequest.
  destruct (url_Parse E _) as [perr|]; mrun; [returned|].
  destruct (transport E (sent w) _) as [err|r]; mrun; [returned|].
  unfold io_ReadAll. destruct (readErr (RespBody r)); mrun; returned.
Qed.

(** No operation retries and, Query and QueryAsJson apart, none panics:
    every call returns, leaves what was sent and logged before in place,
    and adds at most one request, or two for a submit (the submission and
    the wait for its transaction).  Query and QueryAsJson, which may
    panic, send at most one request too. *)
Theorem operations_send_at_most (s : Storage) (w : World) :
  (forall trxs, returnsSending 2 (SubmitPutTx s trxs w) w)
  /\ (forall xtIDs, returnsSending 2 (SubmitEvictTx s xtIDs w) w)
  /\ (forall payloads, returnsSending 2 (PersistEntities s payloads w) w)
  /\ (forall xtId, returnsSending 1 (GetEntity s xtId w) w)
  /\ (forall eid sortOrder withDocs,
        returnsSending 1 (GetEntityHistory s eid sortOrder withDocs w) w)
  /\ (forall txID, returnsSending 1 (AwaitTx s txID w) w)
  /\ (forall ednQuery contentType,
        returnsSending 1 (queryRequest s ednQuery contentType w) w)
  /\ (forall ednQuery,
        (length (sent (snd (Query s ednQuery w))) <= length (sent w) + 1)%nat
        /\ (length (sent (snd (QueryAsJson s ednQuery w))) <= length (sent w) + 1)%nat).
Proof.
  split; [intros; apply SubmitPutTx_run|].
  split; [intros; apply SubmitEvictTx_run|].
  split; [intros; apply PersistEntities_run|].
  split; [intros; apply GetEntity_run|].
  split; [intros; apply GetEntityHistory_run|].
  split; [intros; apply AwaitTx_run|].
  split; [intros; apply queryRequest_run|].
  intros ednQuery. rewrite Query_sent, QueryAsJson_sent. split.
  - destruct (queryRequest_run s ednQuery "application/edn" w)
      as (res & w' & -> & (new & Hs & Hlen) & _).
    cbn [snd]. rewrite Hs, length_app. lia.
  - destruct (queryRequest_run s ednQuery "application/json" w)
      as (res & w' & -> & (new & Hs & Hlen) & _).
    cbn [snd]. rewrite Hs, length_app. lia.
Qed.

(** *** A base address that does not parse *)

(** With a base address from which no URL can be built, every operation
    returns an error and leaves the world as it was.  The checks that
    come first keep their precedence: an encoding error of the batch, the
    empty evict list and a wrong sort order are reported instead of the
    parse error. *)
Theorem bad_address_sends_nothing (s : Storage) (w : World) :
  (forall perr, url_Parse E (address s +:+ "/_xtdb/submit-tx") = Some perr ->
     (forall trxs,
        SubmitPutTx s trxs w
        = (Done (None, Some (default perr (snd (buildTrxPutEdn trxs)))), w))
     /\ (forall xtIDs,
        SubmitEvictTx s xtIDs w
        = (Done (None, Some (if (length xtIDs =? 0)%nat
                             then "need at least one xt/id to evict"
                             else perr)), w))
     /\ (forall payloads,
        PersistEntities s payloads w
        = (Done (0, Some (default perr (snd (buildPersistPayload payloads)))), w)))
  /\ (forall perr, url_Parse E (address s +:+ "/_xtdb/entity") = Some perr ->
     (forall xtId, GetEntity s xtId w = (Done (None, Some perr), w))
     /\ (forall eid sortOrder withDocs,
        GetEntityHistory s eid sortOrder withDocs w
        = (Done (None,
                 Some (if negb (String.eqb sortOrder "asc")
                          && negb (String.eqb sortOrder "desc")
                       then "wrong sort order input, accept 'asc' or 'desc'"
                       else perr)), w)))
  /\ (forall perr, url_Parse E (address s +:+ "/_xtdb/query") = Some perr ->
     forall ednQuery,
       Query s ednQuery w = (Done (None, Some perr), w)
       /\ QueryAsJson s ednQuery w = (Done (None, Some perr), w)
       /\ QueryRaw s ednQuery w = (Done (None, Some perr), w)
       /\ QueryRawAsJson s ednQuery w = (Done (None, Some perr), w)).
Proof.
  split; [|split].
  - intros perr Hurl. split; [|split].
    + intros trxs. unfold SubmitPutTx, http_NewRequest. rewrite Hurl.
      destruct (buildTrxPutEdn trxs) as [body [berr|]]; reflexivity.
    + intros xtIDs. unfold SubmitEvictTx, http_NewRequest. rewrite Hurl.
      destruct (length xtIDs =? 0)%nat; reflexivity.
    + intros payloads. unfold PersistEntities, http_NewRequest. rewrite Hurl.
      destruct (buildPersistPayload payloads) as [body [berr|]]; reflexivity.
  - intros perr Hurl. split.
    + intros xtId. unfold GetEntity, http_NewRequest. rewrite Hurl. reflexivity.
    + intros eid sortOrder withDocs. unfold GetEntityHistory, http_NewRequest.
      rewrite Hurl.
      destruct (negb (String.eqb sortOrder "asc") && negb (String.eqb sortOrder "desc"));
        reflexivity.
  - intros perr Hurl ednQuery.
    unfold Query, QueryAsJson, QueryRaw, QueryRawAsJson, bind, queryRequest,
      http_NewRequest.
    rewrite Hurl. repeat split.
Qed.

(** *** Sync at the edges *)

(** The goroutine cannot keep the caller of Sync from returning.  While
    the caller is waiting: once the context is done, its return is
    enabled wherever the goroutine stands, be it inside a request that
    never ends, it leaves the clock, the goroutine, the log and the
    world as they are, and no step of the goroutine or of the clock
    takes it away again; before that, the passing of time up to the
    deadline is enough to make the context done. *)
Theorem Sync_caller_never_blocked (s : Storage) (timeout : Duration)
    (st : SyncState) :
  caller st = Waiting ->
  (ctx_Done timeout st = true ->
     (exists st' err,
        step s timeout CallerStep st = Some st'
        /\ caller st' = Returned err
        /\ now st' = now st /\ cancelled st' = cancelled st
        /\ poller st' = poller st /\ response st' = response st
        /\ world st' = world st)
     /\ (forall a st1,
           a <> CallerStep -> step s timeout a st = Some st1 ->
           caller st1 = Waiting /\ ctx_Done timeout st1 = true))
  /\ (forall d,
        0 < d -> timeout <= now st + d ->
        exists st1,
          step s timeout (Tick d) st = Some st1
          /\ caller st1 = Waiting /\ ctx_Done timeout st1 = true
          /\ poller st1 = poller st /\ response st1 = response st).
Proof.
  intros Hw. split.
  - intros Hdone. split.
    + cbn [step]. unfold caller_step. rewrite Hw, Hdone.
      eexists _, _. split; [reflexivity|]. cbn. repeat split.
    + intros a st1 Ha Hstep. unfold ctx_Done in *.
      apply orb_true_iff in Hdone.
      destruct a; [| |contradiction]; step_inv Hstep;
        cbn [caller cancelled now] in *;
        (split; [assumption|]); apply orb_true_iff;
        try (left; reflexivity);
        try (destruct Hdone as [Hc|Ht]; [left; exact Hc|right; exact Ht]).
      * destruct Hdone as [Hc|Ht]; [left; exact Hc|right].
        apply Z.leb_le in Ht. apply Z.ltb_lt in Heqb. apply Z.leb_le. lia.
  - intros d Hd Hto. cbn [step].
    destruct (0 <? d) eqn:Hpos; [|apply Z.ltb_ge in Hpos; lia].
    eexists. split; [reflexivity|]. cbn [caller poller response].
    split; [exact Hw|]. split; [|split; reflexivity].
    unfold ctx_Done. cbn [cancelled now]. apply orb_true_iff. right.
    apply Z.leb_le. exact Hto.
Qed.

Lemma expired_step (s : Storage) (timeout : Duration) (w : World) (a : Action)
    (st st' : SyncState) :
  timeout <= 0 -> expired w st -> step s timeout a st = Some st' -> expired w st'.
Proof.
  intros Hto (Hnow & Hworld & (i & Hp) & Hresp) Hstep. unfold expired.
  assert (Hdone : ctx_Done timeout st = true).
  { unfold ctx_Done. destruct (timeout <=? now st) eqn:Hd;
      [apply orb_true_r|apply Z.leb_gt in Hd; lia]. }
  destruct a; step_inv Hstep; cbn [now world poller response] in *;
    try congruence.
  - apply Z.ltb_lt in Heqb. repeat split; try assumption; [lia|eauto].
  - repeat split; try assumption; [eauto|].
    apply Forall_app. split; [assumption|repeat constructor].
  - repeat split; try assumption. eauto.
  - repeat split; try assumption. eauto.
Qed.

(** With a timeout that is zero or negative the context is done from the
    start: Sync never sends a request and never logs, the goroutine only
    ever records "timeout reached", and what the caller returns depends
    on who runs first: nil if it is the caller, an error if the goroutine
    has recorded a line by then. *)
Theorem Sync_expired_timeout_never_polls (s : Storage) (timeout : Duration)
    (w : World) :
  timeout <= 0 ->
  (forall sched st,
     exec s timeout sched (Sync_init w) = Some st ->
     world st = w
     /\ (exists i, poller st = AtSelect i)
     /\ Forall (fun line => line = "timeout reached") (response st))
  /\ Sync s timeout w None
  /\ Sync s timeout w (Some (fmt_Sprintf0 E "timeout reached")).
Proof.
  intros Hto.
  assert (Hdone : ctx_Done timeout (Sync_init w) = true).
  { unfold ctx_Done. cbn [Sync_init cancelled now orb].
    apply Z.leb_le. exact Hto. }
  split; [|split].
  - intros sched st Hrun.
    assert (Hex : expired w st).
    { apply (exec_invariant s timeout (expired w)
               (fun a x y Hx => expired_step s timeout w a x y Hto Hx)
               sched (Sync_init w) st); [|exact Hrun].
      repeat split; cbn; [lia|eauto|constructor]. }
    destruct Hex as (_ & Hw & Hp & Hr). auto.
  - exists [CallerStep]. cbn [exec step]. unfold caller_step. rewrite Hdone.
    cbn [Sync_init caller response length Nat.ltb Nat.leb].
    eexists. split; reflexivity.
  - exists [PollerStep; CallerStep]. cbn [exec step]. unfold poller_step.
    rewrite Hdone. cbn [Sync_init poller]. unfold caller_step.
    unfold ctx_Done in *. cbn [Sync_init cancelled now caller response] in *.
    rewrite Hdone. cbn [app length Nat.ltb Nat.leb strings_Join String.concat].
    eexists. split; reflexivity.
Qed.

Lemma Contains_prefix (sub post : string) : Contains sub (sub +:+ post).
Proof. exists "", post. reflexivity. Qed.

Lemma Contains_app_l (pre sub str : string) :
  Contains sub str -> Contains sub (pre +:+ str).
Proof.
  intros (a & b & ->). exists (pre +:+ a), b. rewrite String_app_assoc. reflexivity.
Qed.

Lemma strings_Join_contains (sep line : string) (lines : list string) :
  In line lines -> Contains line (strings_Join lines sep).
Proof.
  unfold strings_Join. induction lines as [|x rest IH]; intros Hin; [destruct Hin|].
  destruct rest as [|y rest].
  - destruct Hin as [->|[]]. cbn. rewrite <- (String_app_nil_r line) at 2.
    apply Contains_prefix.
  - cbn [String.concat]. destruct Hin as [->|Hin].
    + apply Contains_prefix.
    + apply Contains_app_l, Contains_app_l, IH. exact Hin.
Qed.

(** When the caller of Sync returns with something recorded, the error
    it returns is built from all the recorded lines joined by "; ", in
    the order they were recorded, so each of them occurs in the joined
    text; the joined text then goes through fmt as a format string. *)
Theorem Sync_error_lists_every_line (s : Storage) (timeout : Duration)
    (st st' : SyncState) :
  step s timeout CallerStep st = Some st' ->
  response st <> [] ->
  caller st' = Returned (Some (fmt_Sprintf0 E (strings_Join (response st) "; ")))
  /\ forall line, In line (response st) ->
       Contains line (strings_Join (response st) "; ").
Proof.
  intros Hstep Hne. split; [|intros line; apply strings_Join_contains].
  cbn [step] in Hstep. unfold caller_step in Hstep.
  destruct (caller st); [|discriminate].
  destruct (ctx_Done timeout st); [|discriminate].
  injection Hstep as <-. cbn [caller].
  destruct (response st); [contradiction|reflexivity].
Qed.

End Client.

(** * The client at work *)

Example CanonicalMIMEHeaderKey_content_type :
  CanonicalMIMEHeaderKey "content-type" = "Content-Type".
Proof. reflexivity. Qed.

Example buildTrxPutEdn_two_documents :
  buildTrxPutEdn Demo.accepting [Some "{:xt/id 1}"; Some "{:xt/id 2}"]
  = ("{:tx-ops [[:xtdb.api/put {:xt/id 1}][:xtdb.api/put {:xt/id 2}]]}", None).
Proof. reflexivity. Qed.

Example buildTrxEvictEdn_one_identity :
  buildTrxEvictEdn Demo.accepting ["user-1"]
  = ("{:tx-ops [[:xtdb.api/evict " +:+ Demo.quote "user-1" +:+ "]]}", None).
Proof. reflexivity. Qed.

Example GetEntityHistory_query_is_sorted :
  map RawQuery
    (sent (snd (GetEntityHistory Demo.missing Demo.store "user-1" "desc" true
                  Demo.fresh)))
  = [[("eid", "user-1"); ("history", "true"); ("sort-order", "desc");
      ("with-docs", "true")]].
Proof. vm_compute. reflexivity. Qed.

(** The parameters of the base address go out with the request, and the
    GET of the await endpoint carries those of its URL. *)
Example GetEntity_keeps_the_query_of_the_address :
  map RawQuery
    (sent (snd (GetEntity Demo.missing Demo.scoped "user-1" Demo.fresh)))
  = [[("eid", "user-1"); ("x", "1/_xtdb/entity")]]
  /\ RawQuery (await_request Demo.missing Demo.store 7)
     = [("tx-id", "7"); ("timeout", "5000")].
Proof. split; vm_compute; reflexivity. Qed.

Example SubmitPutTx_rejected :
  fst (SubmitPutTx Demo.broken Demo.store [Some "{:xt/id 1}"] Demo.fresh)
  = Done (None, Some "received unknown status code=500").
Proof. vm_compute. reflexivity. Qed.

(** A store in sync: the first poll succeeds after 20ms and the caller
    returns nil then, long before the timeout of one second. *)
Example Sync_succeeds_at_once :
  exists st,
    exec Demo.synced Demo.store (1 * Second)
      [PollerStep; Tick (20 * Millisecond); PollerStep; CallerStep]
      (Sync_init Demo.fresh) = Some st
    /\ caller st = Returned None
    /\ poller st = Exited
    /\ now st = 20 * Millisecond.
Proof. eexists. split; [vm_compute; reflexivity|]. repeat split. Qed.

(** A store that refuses every connection: three attempts fit in five
    seconds, and the caller returns them at the deadline. *)
Example Sync_times_out_with_three_attempts :
  exists st,
    exec Demo.refusing Demo.store (5 * Second)
      [PollerStep; PollerStep; Tick (2 * Second);
       PollerStep; PollerStep; PollerStep; Tick (2 * Second);
       PollerStep; PollerStep; PollerStep; Tick (1 * Second);
       CallerStep]
      (Sync_init Demo.fresh) = Some st
    /\ caller st
       = Returned
           (Some ("attempt=1, failed sync xtdb, error=connection refused; "
                  +:+ "attempt=2, failed sync xtdb, error=connection refused; "
                  +:+ "attempt=3, failed sync xtdb, error=connection refused"))
    /\ now st = 5 * Second.
Proof. eexists. split; [vm_compute; reflexivity|]. split; reflexivity. Qed.

(** * The properties on a concrete store *)

Lemma SubmitEvictTx_empty_guard_witness :
  url_Parse Demo.accepting (address Demo.store +:+ "/_xtdb/submit-tx") = None
  /\ exists req rest,
       sent (snd (SubmitEvictTx Demo.accepting Demo.store ["user-1"; "user-2"]
                    Demo.fresh))
       = sent Demo.fresh ++ req :: rest
       /\ Method req = "POST"
       /\ URL req = address Demo.store +:+ "/_xtdb/submit-tx"
       /\ ReqBody req
          = Some (fst (buildTrxEvictEdn Demo.accepting ["user-1"; "user-2"])).
Proof.
  split; [vm_compute; reflexivity|].
  apply (proj2 (SubmitEvictTx_empty_guard Demo.accepting Demo.store Demo.fresh)).
  vm_compute. reflexivity.
Defined.

Lemma GetEntityHistory_sortOrder_guard_witness :
  ("newest" <> "asc" /\ "newest" <> "desc"
   /\ GetEntityHistory Demo.missing Demo.store "user-1" "newest" true Demo.fresh
      = (Done (None, Some "wrong sort order input, accept 'asc' or 'desc'"),
         Demo.fresh))
  /\ (("desc" = "asc" \/ "desc" = "desc")
      /\ url_Parse Demo.missing (address Demo.store +:+ "/_xtdb/entity") = None
      /\ exists req,
           sent (snd (GetEntityHistory Demo.missing Demo.store "user-1" "desc" true
                        Demo.fresh))
           = sent Demo.fresh ++ [req]
           /\ Method req = "GET"
           /\ URL req = address Demo.store +:+ "/_xtdb/entity"
           /\ RawQuery req = [("eid", "user-1"); ("history", "true");
                              ("sort-order", "desc");
                              ("with-docs", fmt_bool true)])
  (* a base address that has a query string of its own *)
  /\ (url_Parse Demo.missing (address Demo.scoped +:+ "/_xtdb/entity") = None
      /\ exists req,
           sent (snd (GetEntityHistory Demo.missing Demo.scoped "user-1" "asc" false
                        Demo.fresh))
           = sent Demo.fresh ++ [req]
           /\ Method req = "GET"
           /\ URL req = "http://h:3000?x=1/_xtdb/entity"
           /\ RawQuery req = [("eid", "user-1"); ("history", "true");
                              ("sort-order", "asc"); ("with-docs", "false");
                              ("x", "1/_xtdb/entity")]).
Proof.
  split; [|split].
  - split; [discriminate|]. split; [discriminate|].
    apply (proj1 (GetEntityHistory_sortOrder_guard Demo.missing Demo.store
                    "user-1" "newest" true Demo.fresh)); discriminate.
  - split; [right; reflexivity|]. split; [vm_compute; reflexivity|].
    apply (proj2 (GetEntityHistory_sortOrder_guard Demo.missing Demo.store
                    "user-1" "desc" true Demo.fresh)).
    + right. reflexivity.
    + vm_compute. reflexivity.
  - split; [vm_compute; reflexivity|].
    destruct (proj2 (GetEntityHistory_sortOrder_guard Demo.missing Demo.scoped
                       "user-1" "asc" false Demo.fresh)
                (or_introl eq_refl) ltac:(vm_compute; reflexivity))
      as (req & Hsent & Hmethod & Hurl & Hquery).
    exists req. split; [exact Hsent|]. split; [exact Hmethod|].
    split; [exact Hurl|]. rewrite Hquery. vm_compute. reflexivity.
Defined.

Lemma entity_not_found_is_absent_witness :
  fst (GetEntity Demo.missing Demo.store "user-1" Demo.fresh) = Done (None, None)
  /\ fst (GetEntityHistory Demo.missing Demo.store "user-1" "asc" false Demo.fresh)
     = Done (None, None)
  /\ (exists err,
        fst (GetEntity Demo.broken Demo.store "user-1" Demo.fresh)
        = Done (None, Some err) /\ Contains "500" err)
  /\ (exists err,
        fst (GetEntityHistory Demo.broken Demo.store "user-1" "asc" false Demo.fresh)
        = Done (None, Some err) /\ Contains "500" err).
Proof.
  split; [|split; [|split]].
  - refine (proj1 (proj1 (entity_not_found_is_absent Demo.missing Demo.store Demo.fresh)
                     "user-1" (Demo.entity "user-1")
                     {| StatusCode := 404;
                        RespBody := {| content := ""; readErr := None |} |}
                     _ _) _);
      vm_compute; reflexivity.
  - refine (proj1 (proj2 (entity_not_found_is_absent Demo.missing Demo.store Demo.fresh)
                     "user-1" "asc" false (Demo.history "user-1" "asc" false)
                     {| StatusCode := 404;
                        RespBody := {| content := ""; readErr := None |} |}
                     _ _) _);
      vm_compute; reflexivity.
  - refine (proj2 (proj1 (entity_not_found_is_absent Demo.broken Demo.store Demo.fresh)
                     "user-1" (Demo.entity "user-1")
                     {| StatusCode := 500;
                        RespBody := {| content := "boom"; readErr := None |} |}
                     _ _) _ _);
      try (vm_compute; reflexivity); discriminate.
  - refine (proj2 (proj2 (entity_not_found_is_absent Demo.broken Demo.store Demo.fresh)
                     "user-1" "asc" false (Demo.history "user-1" "asc" false)
                     {| StatusCode := 500;
                        RespBody := {| content := "boom"; readErr := None |} |}
                     _ _) _ _);
      try (vm_compute; reflexivity); discriminate.
Defined.

Lemma SubmitPutTx_encoding_error_witness :
  (exists tx err,
     In tx [Some "{:xt/id 1}"; None; Some "{:xt/id 3}"]
     /\ edn_Marshal Demo.accepting tx = Err err)
  /\ exists tx err,
       In tx [Some "{:xt/id 1}"; None; Some "{:xt/id 3}"]
       /\ edn_Marshal Demo.accepting tx = Err err
       /\ buildTrxPutEdn Demo.accepting [Some "{:xt/id 1}"; None; Some "{:xt/id 3}"]
          = ("", Some err)
       /\ SubmitPutTx Demo.accepting Demo.store
            [Some "{:xt/id 1}"; None; Some "{:xt/id 3}"] Demo.fresh
          = (Done (None, Some err), Demo.fresh).
Proof.
  assert (H : exists tx err,
             In tx [Some "{:xt/id 1}"; None; Some "{:xt/id 3}"]
             /\ edn_Marshal Demo.accepting tx = Err err).
  { exists None, "edn: unsupported type". split; [right; left; reflexivity|reflexivity]. }
  split; [exact H|].
  exact (SubmitPutTx_encoding_error Demo.accepting Demo.store
           [Some "{:xt/id 1}"; None; Some "{:xt/id 3}"] Demo.fresh H).
Defined.

Lemma submit_accepted_is_success_witness :
  (* the receipt decodes, the wait for transaction 7 fails *)
  (fst (SubmitPutTx Demo.accepting Demo.store [Some "{:xt/id 1}"] Demo.fresh)
   = Done (Some {| TxID := 7; TxTime := 0 |}, None)
   /\ In (LWarn, "failed awaiting transaction 7, err=connection refused")
         (logged (snd (SubmitPutTx Demo.accepting Demo.store [Some "{:xt/id 1}"]
                         Demo.fresh))))
  /\ fst (SubmitEvictTx Demo.accepting Demo.store ["user-1"] Demo.fresh)
     = Done (Some {| TxID := 7; TxTime := 0 |}, None)
  /\ fst (PersistEntities Demo.accepting Demo.store ["{}"] Demo.fresh)
     = Done (7, None)
  (* the receipt does not decode *)
  /\ fst (SubmitPutTx Demo.mute Demo.store [Some "{:xt/id 1}"] Demo.fresh)
     = Done (Some zeroTxResponse, None)
  /\ In (LWarn, "error decoding transaction response, err=EOF")
        (logged (snd (SubmitPutTx Demo.mute Demo.store [Some "{:xt/id 1}"]
                        Demo.fresh))).
Proof.
  assert (Hrt : forall req, Method req = "POST" ->
                  transport Demo.accepting (sent Demo.fresh) req
                  = Responded Demo.receipt).
  { intros req Hm. cbn. unfold Demo.acceptsOnly. rewrite Hm. reflexivity. }
  assert (Hmute :
            fst (SubmitPutTx Demo.mute Demo.store [Some "{:xt/id 1}"] Demo.fresh)
            = Done (Some zeroTxResponse, None)
            /\ In (LWarn, "error decoding transaction response, err=EOF")
                  (logged (snd (SubmitPutTx Demo.mute Demo.store [Some "{:xt/id 1}"]
                                  Demo.fresh)))).
  { pose proof (proj1 (submit_accepted_is_success Demo.mute Demo.store Demo.fresh
                         (Demo.submit "{:tx-ops [[:xtdb.api/put {:xt/id 1}]]}")
                         {| StatusCode := 202;
                            RespBody := {| content := ""; readErr := None |} |}
                         eq_refl eq_refl)
                  [Some "{:xt/id 1}"] _ ltac:(vm_compute; reflexivity)) as H.
    destruct H as (Hok & Hdec & _). split; [exact Hok|].
    apply Hdec. reflexivity. }
  split; [|split; [|split; [|exact Hmute]]].
  - pose proof (proj1 (submit_accepted_is_success Demo.accepting Demo.store Demo.fresh
                         (Demo.submit "{:tx-ops [[:xtdb.api/put {:xt/id 1}]]}")
                         Demo.receipt
                         (Hrt (Demo.submit "{:tx-ops [[:xtdb.api/put {:xt/id 1}]]}")
                            eq_refl)
                         eq_refl)
                  [Some "{:xt/id 1}"] _ ltac:(vm_compute; reflexivity)) as H.
    destruct H as (Hok & _ & Hwait). split; [exact Hok|].
    apply Hwait; [reflexivity|vm_compute; reflexivity].
  - pose proof (proj1 (proj2 (submit_accepted_is_success Demo.accepting Demo.store
                                Demo.fresh
                                (Demo.submit
                                   (fst (buildTrxEvictEdn Demo.accepting ["user-1"])))
                                Demo.receipt
                                (Hrt (Demo.submit
                                        (fst (buildTrxEvictEdn Demo.accepting
                                                ["user-1"])))
                                   eq_refl)
                                eq_refl))
                  ["user-1"] _ ltac:(vm_compute; reflexivity)) as H.
    destruct H as (Hok & _). exact Hok.
  - pose proof (proj2 (proj2 (submit_accepted_is_success Demo.accepting Demo.store
                                Demo.fresh (Demo.persist "{}")
                                Demo.receipt (Hrt (Demo.persist "{}") eq_refl)
                                eq_refl))
                  ["{}"] _ ltac:(vm_compute; reflexivity)) as H.
    destruct H as (Hok & _). exact Hok.
Defined.

Lemma Query_first_columns_witness :
  (1 < 2)%nat
  /\ (exists r,
        length r = 2%nat
        /\ (forall (i : nat) (row : list string),
              [["a"; "b"]; ["c"; "d"]] !! i = Some row -> r !! i = row !! 0%nat)
        /\ fst (Query Demo.tabular Demo.store "{:query {:find [e]}}" Demo.fresh)
           = Done match edn_MarshalMaps Demo.tabular r with
                  | Ok response => (Some response, None)
                  | Err err => (None, Some err)
                  end)
  /\ fst (Query Demo.tabular Demo.store "{:query {:find [e]}}" Demo.fresh)
     = Done (Some "[a c]", None).
Proof.
  split; [lia|]. split; [|vm_compute; reflexivity].
  destruct (proj1 (Query_first_columns Demo.tabular Demo.store "{:query {:find [e]}}"
                     "[[a b] [c d]]" Demo.fresh
                     (snd (Query Demo.tabular Demo.store "{:query {:find [e]}}"
                             Demo.fresh))
                     2 ltac:(lia))
              [["a"; "b"]; ["c"; "d"]]
              ltac:(vm_compute; reflexivity) eq_refl
              ltac:(repeat constructor))
    as (r & Hlen & Hnth & Hrun).
  exists r. split; [exact Hlen|]. split; [exact Hnth|].
  rewrite Hrun. reflexivity.
Defined.

Lemma Query_empty_row_panics_witness :
  In [] [["a"]; []]
  /\ (exists msg,
        Query Demo.ragged Demo.store "{:query {:find [e]}}" Demo.fresh
        = (Panicked msg,
           snd (queryRequest Demo.ragged Demo.store "{:query {:find [e]}}"
                  "application/edn" Demo.fresh)))
  /\ (exists msg,
        QueryAsJson Demo.ragged Demo.store "{:query {:find [e]}}" Demo.fresh
        = (Panicked msg,
           snd (queryRequest Demo.ragged Demo.store "{:query {:find [e]}}"
                  "application/json" Demo.fresh))).
Proof.
  assert (Hin : In (@nil string) [["a"]; []]) by (right; left; reflexivity).
  split; [exact Hin|]. split.
  - apply (proj1 (proj2 (Query_empty_row_panics Demo.ragged Demo.store
                           "{:query {:find [e]}}" "[[a] []]" Demo.fresh _))
             [["a"]; []]); [vm_compute; reflexivity|reflexivity|exact Hin].
  - apply (proj2 (proj2 (Query_empty_row_panics Demo.ragged Demo.store
                           "{:query {:find [e]}}" "[[a] []]" Demo.fresh _))
             [["a"]; []]); [vm_compute; reflexivity|reflexivity|exact Hin].
Defined.

Lemma slow_store_fails : AllPollsFail Demo.slow.
Proof. intros history req. exact I. Defined.

Lemma Sync_poller_never_terminates_witness :
  AllPollsFail Demo.slow
  /\ exists st,
       exec Demo.slow Demo.store (1 * Second)
         [PollerStep; Tick (1 * Second); CallerStep; Tick (4 * Second); PollerStep;
          Tick (2 * Second); PollerStep; PollerStep; PollerStep]
         (Sync_init Demo.fresh) = Some st
       /\ caller st = Returned None
       /\ poller st <> Exited
       /\ exists wait st',
            exec Demo.slow Demo.store (1 * Second) [Tick wait; PollerStep] st
            = Some st'.
Proof.
  split; [exact slow_store_fails|].
  eexists. split; [vm_compute; reflexivity|]. split; [reflexivity|].
  apply (Sync_poller_never_terminates Demo.slow Demo.store (1 * Second) Demo.fresh
           slow_store_fails
           [PollerStep; Tick (1 * Second); CallerStep; Tick (4 * Second); PollerStep;
            Tick (2 * Second); PollerStep; PollerStep; PollerStep]).
  vm_compute. reflexivity.
Defined.

Lemma Sync_deadline_before_first_answer_witness :
  AllPollsFail Demo.slow
  /\ 0 < 1 * Second
  /\ url_Parse Demo.slow (sync_url Demo.store (1 * Second)) = None
  /\ 1 * Second < latency Demo.slow (sent Demo.fresh)
                    (sync_request Demo.slow Demo.store (1 * Second))
  /\ Sync Demo.slow Demo.store (1 * Second) Demo.fresh None
  /\ exists st i ready rt,
       exec Demo.slow Demo.store (1 * Second)
         [PollerStep; Tick (1 * Second); CallerStep] (Sync_init Demo.fresh) = Some st
       /\ caller st = Returned None
       /\ now st = 1 * Second
       /\ cancelled st = false
       /\ poller st = InGet i ready rt /\ failedPoll rt /\ now st < ready.
Proof.
  split; [exact slow_store_fails|].
  split; [reflexivity|]. split; [vm_compute; reflexivity|]. split; [reflexivity|].
  apply (Sync_deadline_before_first_answer Demo.slow Demo.store (1 * Second) Demo.fresh
           slow_store_fails); [reflexivity|vm_compute; reflexivity|reflexivity].
Defined.

(** C3, as stated, fails on QueryAsJson: its request asks for a JSON
    answer and announces an EDN body, so it carries two encodings. *)
Lemma QueryAsJson_mixes_encodings :
  ~ (forall req : Request,
       In req (sent (snd (QueryAsJson Demo.tabular Demo.store "{:query {:find [e]}}"
                            Demo.fresh))) ->
       singleEncoding req).
Proof.
  intros H.
  destruct (H (Header_Set
                 (Header_Set
                    {| Method := "POST"; URL := "http://localhost:3000/_xtdb/query";
                       RawQuery := []; Header := ∅;
                       ReqBody := Some "{:query {:find [e]}}" |}
                    "accept" "application/json")
                 "content-type" "application/edn"))
    as (enc & Haccept & Hcontent).
  - vm_compute. left. reflexivity.
  - vm_compute in Haccept, Hcontent. congruence.
Qed.

(** * The further properties on a concrete store *)

Lemma buildTrxPutEdn_envelope_witness :
  Forall2 (fun tx txEdn => edn_Marshal Demo.accepting tx = Ok txEdn)
    [Some "{:xt/id 1}"; Some "{:xt/id 2}"] ["{:xt/id 1}"; "{:xt/id 2}"]
  /\ buildTrxPutEdn Demo.accepting [Some "{:xt/id 1}"; Some "{:xt/id 2}"]
     = ("{:tx-ops [[:xtdb.api/put {:xt/id 1}][:xtdb.api/put {:xt/id 2}]]}", None).
Proof.
  assert (H : Forall2 (fun tx txEdn => edn_Marshal Demo.accepting tx = Ok txEdn)
                [Some "{:xt/id 1}"; Some "{:xt/id 2}"] ["{:xt/id 1}"; "{:xt/id 2}"])
    by (repeat constructor).
  split; [exact H|].
  exact (buildTrxPutEdn_envelope Demo.accepting _ _ H).
Defined.

Lemma submit_rejected_witness :
  SubmitPutTx Demo.broken Demo.store [Some "{:xt/id 1}"] Demo.fresh
  = (Done (None, Some "received unknown status code=500"),
     {| sent := [Demo.submit "{:tx-ops [[:xtdb.api/put {:xt/id 1}]]}"];
        logged := [(LPrint, "unknown status code=500, body=boom")] |})
  /\ PersistEntities Demo.broken Demo.store ["{}"] Demo.fresh
     = (Done (0, Some "not 202"),
        {| sent := [Demo.persist "{}"]; logged := [] |}).
Proof.
  split.
  - refine (proj1 (submit_rejected Demo.broken Demo.store Demo.fresh
                     (Demo.submit "{:tx-ops [[:xtdb.api/put {:xt/id 1}]]}")
                     {| StatusCode := 500;
                        RespBody := {| content := "boom"; readErr := None |} |}
                     eq_refl _)
              [Some "{:xt/id 1}"] [] _); [discriminate|vm_compute; reflexivity].
  - refine (proj2 (proj2 (submit_rejected Demo.broken Demo.store Demo.fresh
                            (Demo.persist "{}")
                            {| StatusCode := 500;
                               RespBody := {| content := "boom"; readErr := None |} |}
                            eq_refl _))
              ["{}"] [] _); [discriminate|vm_compute; reflexivity].
Defined.

Lemma submit_transport_failure_witness :
  SubmitEvictTx Demo.refusing Demo.store ["user-1"] Demo.fresh
  = (Done (None, Some "connection refused"),
     {| sent := [Demo.submit (fst (buildTrxEvictEdn Demo.refusing ["user-1"]))];
        logged := [] |}).
Proof.
  refine (proj1 (proj2 (submit_transport_failure Demo.refusing Demo.store Demo.fresh
                          (Demo.submit (fst (buildTrxEvictEdn Demo.refusing ["user-1"])))
                          "connection refused" eq_refl))
            ["user-1"] [] _).
  vm_compute. reflexivity.
Defined.

Lemma submit_waits_for_positive_ids_witness :
  (* the receipt carries the id 7 *)
  sent (snd (SubmitPutTx Demo.accepting Demo.store [Some "{:xt/id 1}"] Demo.fresh))
  = [Demo.submit "{:tx-ops [[:xtdb.api/put {:xt/id 1}]]}";
     await_request Demo.accepting Demo.store 7]
  (* the receipt does not decode and its id stays 0 *)
  /\ sent (snd (SubmitPutTx Demo.mute Demo.store [Some "{:xt/id 1}"] Demo.fresh))
     = [Demo.submit "{:tx-ops [[:xtdb.api/put {:xt/id 1}]]}"].
Proof.
  split.
  - set (rest := tl (sent (snd (SubmitPutTx Demo.accepting Demo.store
                                  [Some "{:xt/id 1}"] Demo.fresh)))).
    assert (Hsent :
              sent (snd (SubmitPutTx Demo.accepting Demo.store [Some "{:xt/id 1}"]
                           Demo.fresh))
              = sent Demo.fresh
                ++ Demo.submit "{:tx-ops [[:xtdb.api/put {:xt/id 1}]]}" :: rest)
      by (vm_compute; reflexivity).
    rewrite Hsent.
    rewrite (proj2 (proj1 (submit_waits_for_positive_ids Demo.accepting Demo.store
                             Demo.fresh
                             (Demo.submit "{:tx-ops [[:xtdb.api/put {:xt/id 1}]]}")
                             Demo.receipt eq_refl eq_refl)
                      [Some "{:xt/id 1}"] rest Hsent)
               ltac:(reflexivity) ltac:(vm_compute; reflexivity)).
    reflexivity.
  - set (rest := tl (sent (snd (SubmitPutTx Demo.mute Demo.store
                                  [Some "{:xt/id 1}"] Demo.fresh)))).
    assert (Hsent :
              sent (snd (SubmitPutTx Demo.mute Demo.store [Some "{:xt/id 1}"]
                           Demo.fresh))
              = sent Demo.fresh
                ++ Demo.submit "{:tx-ops [[:xtdb.api/put {:xt/id 1}]]}" :: rest)
      by (vm_compute; reflexivity).
    rewrite Hsent.
    rewrite (proj1 (proj1 (submit_waits_for_positive_ids Demo.mute Demo.store
                             Demo.fresh
                             (Demo.submit "{:tx-ops [[:xtdb.api/put {:xt/id 1}]]}")
                             {| StatusCode := 202;
                                RespBody := {| content := ""; readErr := None |} |}
                             eq_refl eq_refl)
                      [Some "{:xt/id 1}"] rest Hsent)
               ltac:(vm_compute; discriminate)).
    reflexivity.
Defined.

Lemma AwaitTx_result_witness :
  url_Parse Demo.synced (URL (await_request Demo.synced Demo.store 7)) = None
  /\ AwaitTx Demo.synced Demo.store 7 Demo.fresh
     = (Done None, {| sent := [await_request Demo.synced Demo.store 7]; logged := [] |})
  /\ exists err,
       fst (AwaitTx Demo.broken Demo.store 7 Demo.fresh) = Done (Some err)
       /\ Contains "7" err /\ Contains "500" err.
Proof.
  assert (Hurl : url_Parse Demo.synced (URL (await_request Demo.synced Demo.store 7)) = None)
    by (vm_compute; reflexivity).
  split; [exact Hurl|]. split.
  - destruct (AwaitTx_result Demo.synced Demo.store 7 Demo.fresh Hurl)
      as (Hw & Hnil & _).
    rewrite (surjective_pairing (AwaitTx Demo.synced Demo.store 7 Demo.fresh)).
    rewrite Hw. rewrite (proj2 Hnil); [reflexivity|].
    eexists. split; reflexivity.
  - destruct (AwaitTx_result Demo.broken Demo.store 7 Demo.fresh Hurl)
      as (_ & _ & Herr).
    eexists. split; [vm_compute; reflexivity|].
    destruct (Herr _ ltac:(vm_compute; reflexivity)) as [Hid Hcode].
    split; [exact Hid|]. exact (Hcode _ eq_refl).
Defined.

Lemma entity_found_witness :
  fst (GetEntity Demo.tabular Demo.store "user-1" Demo.fresh)
  = Done (Some "[[a b] [c d]]", None)
  /\ fst (GetEntityHistory Demo.tabular Demo.store "user-1" "asc" true Demo.fresh)
     = Done (Some "[[a b] [c d]]", None).
Proof.
  split.
  - refine (proj1 (entity_found Demo.tabular Demo.store Demo.fresh
                     (Demo.entity "user-1")
                     {| StatusCode := 200;
                        RespBody := {| content := "[[a b] [c d]]"; readErr := None |} |}
                     eq_refl eq_refl) "user-1" _).
    vm_compute. reflexivity.
  - refine (proj2 (entity_found Demo.tabular Demo.store Demo.fresh
                     (Demo.history "user-1" "asc" true)
                     {| StatusCode := 200;
                        RespBody := {| content := "[[a b] [c d]]"; readErr := None |} |}
                     eq_refl eq_refl) "user-1" "asc" true _).
    vm_compute. reflexivity.
Defined.

Lemma queryRequest_ignores_status_witness :
  QueryRaw Demo.broken Demo.store "{:query {:find [e]}}" Demo.fresh
  = (Done (Some "boom", None),
     {| sent := [Demo.query "{:query {:find [e]}}" "application/edn"];
        logged := [] |}).
Proof.
  refine (queryRequest_ignores_status Demo.broken Demo.store "{:query {:find [e]}}"
            "application/edn" Demo.fresh
            (Demo.query "{:query {:find [e]}}" "application/edn")
            {| StatusCode := 500;
               RespBody := {| content := "boom"; readErr := None |} |}
            _ eq_refl).
  vm_compute. reflexivity.
Defined.

Lemma Query_first_column_of_each_row_witness :
  Forall (fun row : list string => row <> []) [["a"]; ["c"; "d"]]
  /\ fst (Query Demo.uneven Demo.store "{:query {:find [e]}}" Demo.fresh)
     = Done (Some "[a c]", None).
Proof.
  assert (H : Forall (fun row : list string => row <> []) [["a"]; ["c"; "d"]])
    by (repeat constructor; discriminate).
  split; [exact H|].
  rewrite (proj2 (proj1 (Query_first_column_of_each_row Demo.uneven Demo.store
                           "{:query {:find [e]}}" "[[a] [c d]]" Demo.fresh
                           (snd (Query Demo.uneven Demo.store "{:query {:find [e]}}"
                                   Demo.fresh)))
                    [["a"]; ["c"; "d"]]
                    ltac:(vm_compute; reflexivity) eq_refl H)).
  reflexivity.
Defined.

Lemma bad_address_sends_nothing_witness :
  url_Parse Demo.accepting (address Demo.garbled +:+ "/_xtdb/submit-tx")
  = Some "net/url: invalid control character in URL"
  /\ SubmitPutTx Demo.accepting Demo.garbled [Some "{:xt/id 1}"] Demo.fresh
     = (Done (None, Some "net/url: invalid control character in URL"), Demo.fresh)
  /\ SubmitPutTx Demo.accepting Demo.garbled [None] Demo.fresh
     = (Done (None, Some "edn: unsupported type"), Demo.fresh)
  /\ GetEntityHistory Demo.accepting Demo.garbled "user-1" "newest" true Demo.fresh
     = (Done (None, Some "wrong sort order input, accept 'asc' or 'desc'"),
        Demo.fresh)
  /\ QueryAsJson Demo.accepting Demo.garbled "{:query {:find [e]}}" Demo.fresh
     = (Done (None, Some "net/url: invalid control character in URL"), Demo.fresh).
Proof.
  split; [vm_compute; reflexivity|].
  destruct (bad_address_sends_nothing Demo.accepting Demo.garbled Demo.fresh)
    as (Hsubmit & Hentity & Hquery).
  split; [|split; [|split]].
  - exact (proj1 (Hsubmit _ ltac:(vm_compute; reflexivity)) [Some "{:xt/id 1}"]).
  - exact (proj1 (Hsubmit _ ltac:(vm_compute; reflexivity)) [None]).
  - exact (proj2 (Hentity _ ltac:(vm_compute; reflexivity)) "user-1" "newest" true).
  - exact (proj1 (proj2 (Hquery _ ltac:(vm_compute; reflexivity)
                           "{:query {:find [e]}}"))).
Defined.

Lemma EntityToMap_lookup_witness :
  EntityToMap Demo.record = Done (<["name" := 5]> (<["xt/id" := 1]> ∅))
  /\ (<["name" := 5]> (<["xt/id" := 1]> ∅) : gmap string Z) !! "name" = Some 5
  /\ (<["name" := 5]> (<["xt/id" := 1]> ∅) : gmap string Z) !! "-" = None.
Proof.
  assert (Hrun : EntityToMap Demo.record = Done (<["name" := 5]> (<["xt/id" := 1]> ∅)))
    by (vm_compute; reflexivity).
  split; [exact Hrun|]. split.
  - exact (EntityToMap_lookup _ _ Hrun "name").
  - exact (EntityToMap_lookup _ _ Hrun "-").
Defined.

Lemma Sync_not_before_deadline_witness :
  (* every poll fails: the caller returns at the deadline *)
  (exists st err,
     exec Demo.refusing Demo.store (5 * Second)
       [PollerStep; PollerStep; Tick (2 * Second);
        PollerStep; PollerStep; PollerStep; Tick (3 * Second); CallerStep]
       (Sync_init Demo.fresh) = Some st
     /\ caller st = Returned err
     /\ (5 * Second <= now st \/ (cancelled st = true /\ poller st = Exited)))
  (* the first poll succeeds: the caller returns before it *)
  /\ (exists st err,
     exec Demo.synced Demo.store (1 * Second)
       [PollerStep; Tick (20 * Millisecond); PollerStep; CallerStep]
       (Sync_init Demo.fresh) = Some st
     /\ caller st = Returned err
     /\ (1 * Second <= now st \/ (cancelled st = true /\ poller st = Exited))).
Proof.
  split.
  - eexists _, _. split; [vm_compute; reflexivity|]. split; [reflexivity|].
    eapply (Sync_not_before_deadline Demo.refusing Demo.store (5 * Second) Demo.fresh
              [PollerStep; PollerStep; Tick (2 * Second);
               PollerStep; PollerStep; PollerStep; Tick (3 * Second); CallerStep]);
      [vm_compute; reflexivity|reflexivity].
  - eexists _, _. split; [vm_compute; reflexivity|]. split; [reflexivity|].
    eapply (Sync_not_before_deadline Demo.synced Demo.store (1 * Second) Demo.fresh
              [PollerStep; Tick (20 * Millisecond); PollerStep; CallerStep]);
      [vm_compute; reflexivity|reflexivity].
Defined.

Lemma Sync_success_discards_log_witness :
  exists st,
    exec Demo.synced Demo.store (1 * Second)
      [PollerStep; Tick (20 * Millisecond); PollerStep] (Sync_init Demo.fresh)
    = Some st
    /\ poller st = Exited
    /\ response st = [] /\ cancelled st = true
    /\ (caller st = Waiting ->
        exists st', step Demo.synced Demo.store (1 * Second) CallerStep st = Some st'
                    /\ caller st' = Returned None /\ now st' = now st).
Proof.
  eexists. split; [vm_compute; reflexivity|]. split; [reflexivity|].
  eapply (Sync_success_discards_log Demo.synced Demo.store (1 * Second) Demo.fresh
            [PollerStep; Tick (20 * Millisecond); PollerStep]);
    [vm_compute; reflexivity|reflexivity].
Defined.

Lemma Sync_poller_spins_witness :
  poller (Sync_init Demo.fresh) = AtSelect 1
  /\ ctx_Done 0 (Sync_init Demo.fresh) = true
  /\ exists st' j,
       exec Demo.slow Demo.store 0 (repeat PollerStep 3) (Sync_init Demo.fresh)
       = Some st'
       /\ poller st' = AtSelect j
       /\ response st'
          = response (Sync_init Demo.fresh) ++ repeat "timeout reached" 3
       /\ caller st' = caller (Sync_init Demo.fresh)
       /\ now st' = now (Sync_init Demo.fresh).
Proof.
  split; [reflexivity|]. split; [reflexivity|].
  exact (Sync_poller_spins Demo.slow Demo.store 0 3 (Sync_init Demo.fresh) 1
           eq_refl eq_refl).
Defined.

Lemma Sync_caller_never_blocked_witness :
  exists st st1,
    (* the first request is out and takes five seconds *)
    exec Demo.slow Demo.store (1 * Second) [PollerStep] (Sync_init Demo.fresh)
    = Some st
    /\ caller st = Waiting
    (* one second later the context is done *)
    /\ 0 < 1 * Second /\ 1 * Second <= now st + 1 * Second
    /\ step Demo.slow Demo.store (1 * Second) (Tick (1 * Second)) st = Some st1
    /\ caller st1 = Waiting /\ ctx_Done (1 * Second) st1 = true
    (* and the caller returns with the request still in flight *)
    /\ exists st' err,
         step Demo.slow Demo.store (1 * Second) CallerStep st1 = Some st'
         /\ caller st' = Returned err
         /\ now st' = now st1 /\ cancelled st' = cancelled st1
         /\ poller st' = poller st1 /\ response st' = response st1
         /\ world st' = world st1.
Proof.
  assert (Hrun : exists st,
             exec Demo.slow Demo.store (1 * Second) [PollerStep]
               (Sync_init Demo.fresh) = Some st
             /\ caller st = Waiting /\ now st = 0).
  { eexists. split; [vm_compute; reflexivity|]. split; reflexivity. }
  destruct Hrun as (st & Hrun & Hw & Hnow).
  assert (Hlate : 1 * Second <= now st + 1 * Second) by (rewrite Hnow; discriminate).
  destruct (proj2 (Sync_caller_never_blocked Demo.slow Demo.store (1 * Second)
                     st Hw)
              (1 * Second) eq_refl Hlate)
    as (st1 & Hstep & Hw1 & Hdone1 & _).
  exists st, st1. split; [exact Hrun|]. split; [exact Hw|].
  split; [reflexivity|]. split; [exact Hlate|].
  split; [exact Hstep|]. split; [exact Hw1|]. split; [exact Hdone1|].
  exact (proj1 (proj1 (Sync_caller_never_blocked Demo.slow Demo.store (1 * Second)
                         st1 Hw1)
                  Hdone1)).
Defined.

Lemma Sync_expired_timeout_never_polls_witness :
  0 <= 0
  /\ (forall sched st,
        exec Demo.synced Demo.store 0 sched (Sync_init Demo.fresh) = Some st ->
        world st = Demo.fresh
        /\ (exists i, poller st = AtSelect i)
        /\ Forall (fun line => line = "timeout reached") (response st))
  /\ Sync Demo.synced Demo.store 0 Demo.fresh None
  /\ Sync Demo.synced Demo.store 0 Demo.fresh (Some "timeout reached").
Proof.
  split; [lia|].
  exact (Sync_expired_timeout_never_polls Demo.synced Demo.store 0 Demo.fresh
           ltac:(lia)).
Defined.

Lemma Sync_error_lists_every_line_witness :
  response overdue_state <> []
  /\ exists st',
       step Demo.refusing Demo.store (5 * Second) CallerStep overdue_state = Some st'
       /\ caller st'
          = Returned
              (Some ("attempt=1, failed sync xtdb, error=connection refused; "
                     +:+ "attempt=2, failed sync xtdb, error=connection refused"))
       /\ forall line, In line (response overdue_state) ->
            Contains line (strings_Join (response overdue_state) "; ").
Proof.
  split; [discriminate|].
  eexists. split; [vm_compute; reflexivity|].
  exact (Sync_error_lists_every_line Demo.refusing Demo.store (5 * Second)
           overdue_state _ ltac:(vm_compute; reflexivity) ltac:(discriminate)).
Defined.
